(** * Solver: the training-loop driver of [src/solver.py]

    A shallow embedding of the class [Solver] (methods [__init__], [fit],
    [train], [evaluate]) and the properties of its loss bookkeeping,
    best-snapshot tracking, scheduler guard and error behaviour.

    Python's [float] is IEEE binary64; it is modelled with the Standard
    Library's [spec_float] operations at precision 53, which round as the
    hardware does (there is one NaN).  Python's [int] is [Z].  The collaborators the driver only calls (network,
    criterion, optimizer, data loader, metrics aggregator, scheduler) are
    parameters of the development. *)

From Stdlib Require Import ZArith List Bool Lia.
From Stdlib Require Import Floats.SpecFloat.
Import ListNotations.

Local Open Scope Z_scope.

(** ** Python numbers *)

Module PyNum.

Definition prec : Z := 53.
Definition emax : Z := 1024.

(** A Python [float]. *)
Definition float := spec_float.

Definition fadd : float -> float -> float := SFadd prec emax.
Definition fmul : float -> float -> float := SFmul prec emax.
Definition fdiv : float -> float -> float := SFdiv prec emax.
Definition fltb : float -> float -> bool := SFltb.
Definition fleb : float -> float -> bool := SFleb.
Definition feqb : float -> float -> bool := SFeqb.

(** [float(z)] for a Python [int]: the nearest binary64 value (ties to
    even).  Python raises [OverflowError] beyond about 1.8e308; tensor
    sizes and batch counts are machine integers, far below. *)
Definition float_of_int (z : Z) : float := binary_normalize prec emax z 0 false.

Definition is_nan (x : float) : bool :=
  match x with S754_nan => true | _ => false end.

Definition is_zero (x : float) : bool :=
  match x with S754_zero _ => true | _ => false end.

(** The literal [0.0]. *)
Definition f0 : float := S754_zero false.

(** A value of Python's numeric tower as far as the driver uses it: the
    accumulators start as the [int] 0 and become [float] at the first
    addition of a loss. *)
Inductive num : Type :=
| PyInt (z : Z)
| PyFloat (x : float).

Definition to_float (a : num) : float :=
  match a with
  | PyInt z => float_of_int z
  | PyFloat x => x
  end.

(** [a + b] *)
Definition add (a b : num) : num :=
  match a, b with
  | PyInt x, PyInt y => PyInt (x + y)
  | _, _ => PyFloat (fadd (to_float a) (to_float b))
  end.

(** [a * b] *)
Definition mul (a b : num) : num :=
  match a, b with
  | PyInt x, PyInt y => PyInt (x * y)
  | _, _ => PyFloat (fmul (to_float a) (to_float b))
  end.

Definition is_zero_num (b : num) : bool :=
  match b with
  | PyInt z => z =? 0
  | PyFloat x => is_zero x
  end.

(** The integer [z] as an exact, not yet rounded, binary number. *)
Definition exact_int (z : Z) : float :=
  match z with
  | Z0 => S754_zero false
  | Zpos p => S754_finite false p 0
  | Zneg p => S754_finite true p 0
  end.

(** [a / b] (true division) for a non-zero divisor.  [int / int] is the
    correctly rounded quotient of the two integers. *)
Definition quot (a b : num) : float :=
  match a, b with
  | PyInt x, PyInt y => fdiv (exact_int x) (exact_int y)
  | _, _ => fdiv (to_float a) (to_float b)
  end.

(** Where a float other than NaN stands in the order of [<]: its class
    (minus infinity, negative, zero, positive, plus infinity), then its
    exponent and mantissa, both negated for a negative number. *)
Definition key (x : float) : Z * (Z * Z) :=
  match x with
  | S754_infinity true => (-2, (0, 0))
  | S754_finite true m e => (-1, (- e, Zneg m))
  | S754_zero _ => (0, (0, 0))
  | S754_nan => (0, (0, 0))
  | S754_finite false m e => (1, (e, Zpos m))
  | S754_infinity false => (2, (0, 0))
  end.

Definition key_lt (a b : Z * (Z * Z)) : Prop :=
  fst a < fst b
  \/ (fst a = fst b
      /\ (fst (snd a) < fst (snd b)
          \/ (fst (snd a) = fst (snd b) /\ snd (snd a) < snd (snd b)))).

End PyNum.

(** ** Exceptions and results *)

Inductive exn : Type :=
| ZeroDivisionError
| TypeError
| AttributeError
| IndexError.

Inductive result (A : Type) : Type :=
| Ok (a : A)
| Raise (e : exn).

Arguments Ok {A} a.
Arguments Raise {A} e.

Import PyNum.

(** [a / b]: raises [ZeroDivisionError] when the divisor is zero. *)
Definition truediv (a b : num) : result float :=
  if is_zero_num b then Raise ZeroDivisionError else Ok (quot a b).

(** The float written [n/d] in decimal notation, such as [lit 16 10] for the
    literal [1.6]: both are the binary64 value nearest to the fraction. *)
Definition lit (n d : Z) : float := quot (PyInt n) (PyInt d).

(** [xs[-1]] *)
Definition last_item {A : Type} (xs : list A) : result A :=
  match rev xs with
  | [] => Raise IndexError
  | x :: _ => Ok x
  end.

(** The means [train] appends, from the running sum [a] after [i] batches
    on: each loss is added to the sum, which is divided by the new count. *)
Fixpoint running_from (a : num) (i : Z) (ls : list float) : list float :=
  match ls with
  | [] => []
  | l :: ls' =>
      let a' := add a (PyFloat l) in
      quot a' (PyInt (i + 1)) :: running_from a' (i + 1) ls'
  end.

(** [map f r] on results. *)
Definition result_map {A B : Type} (f : A -> B) (r : result A) : result B :=
  match r with
  | Ok a => Ok (f a)
  | Raise e => Raise e
  end.

(** ** State and exceptions together

    A computation runs on a mutable state and either returns or raises;
    what it did to the state before raising stays done. *)

Definition M (S A : Type) : Type := S -> S * result A.

Definition ret {S A : Type} (a : A) : M S A := fun s => (s, Ok a).

Definition raise {S A : Type} (e : exn) : M S A := fun s => (s, Raise e).

Definition bind {S A B : Type} (c : M S A) (k : A -> M S B) : M S B :=
  fun s =>
    match c s with
    | (s', Ok a) => k a s'
    | (s', Raise e) => (s', Raise e)
    end.

Definition gets {S A : Type} (f : S -> A) : M S A := fun s => (s, Ok (f s)).

Definition modify {S : Type} (f : S -> S) : M S unit := fun s => (f s, Ok tt).

Definition lift {S A : Type} (r : result A) : M S A := fun s => (s, r).

Declare Scope py_scope.
Delimit Scope py_scope with py.

Notation "x <- c ;; k" := (bind c (fun x => k))
  (at level 61, c at next level, right associativity) : py_scope.
Notation "c ;;; k" := (bind c (fun _ => k))
  (at level 61, right associativity) : py_scope.

Local Open Scope py_scope.

(** [for i, x in enumerate(xs): body(i, x)], counting from [i]. *)
Fixpoint for_enumerate {S A : Type} (body : Z -> A -> M S unit)
         (i : Z) (xs : list A) : M S unit :=
  match xs with
  | [] => ret tt
  | x :: xs' => body i x ;;; for_enumerate body (i + 1) xs'
  end.

(** [for _ in range(n): body] *)
Fixpoint repeat_m {S : Type} (body : M S unit) (n : nat) : M S unit :=
  match n with
  | O => ret tt
  | S n' => body ;;; repeat_m body n'
  end.

(** ** Binding the arguments of a call *)

Inductive method_kind : Type :=
| InstanceMethod
| StaticMethod.

(** A [def]: how many parameters it declares and how many of the last ones
    have a default. *)
Record signature : Type := {
  sig_params : nat;
  sig_defaults : nat
}.

(** Looked up on an instance, an ordinary method receives the instance as
    its first positional argument; a static method does not. *)
Definition positional (k : method_kind) (nargs : nat) : nat :=
  match k with
  | InstanceMethod => S nargs
  | StaticMethod => nargs
  end.

(** A call with [nargs] positional arguments: [TypeError] when a parameter
    without default stays unbound or when there are too many arguments. *)
Definition check_call (sg : signature) (k : method_kind) (nargs : nat) : result unit :=
  let n := positional k nargs in
  if (n <? sig_params sg - sig_defaults sg)%nat then Raise TypeError
  else if (sig_params sg <? n)%nat then Raise TypeError
  else Ok tt.

(** [def train(self, model, criterion, optimizer, device, dataloader, metrics)] *)
Definition train_signature : signature :=
  {| sig_params := 7; sig_defaults := 0 |}.

(** [@staticmethod def evaluate(self, model, criterion, device, dataloader,
    metrics, decsription='Validation')] *)
Definition evaluate_signature : signature :=
  {| sig_params := 7; sig_defaults := 1 |}.

Definition evaluate_kind : method_kind := StaticMethod.
Definition train_kind : method_kind := InstanceMethod.

(** ** The collaborators

    What the driver calls but does not define: the network, the criterion,
    the optimizer, the data loader and the metrics aggregator.  All state of
    a collaborator is explicit.  A network is its parameters (with their
    gradients) and the flag [training]; a forward pass reads both, and the
    parameters change through [zero_grad], [backward] and [opt_step] only.
    Moving tensors to the device and the progress bar are not modelled. *)

Class Collaborators : Type := {
  Params : Type;
  Optim : Type;
  Loader : Type;
  Metrics : Type;
  Sched : Type;
  Input : Type;
  Label : Type;
  Logits : Type;
  Loss : Type;
  MetricDict : Type;
  (** [model(X)], given the parameters and the flag [training] *)
  forward : Params -> bool -> Input -> Logits;
  (** [criterion(logits, Y)] and [loss.item()] *)
  criterion : Logits -> Label -> Loss;
  item : Loss -> float;
  (** [optimizer.zero_grad()], [loss.backward()], [optimizer.step()] *)
  zero_grad : Optim -> Params -> Params;
  backward : Loss -> Params -> Params;
  opt_step : Optim -> Params -> Optim * Params;
  (** [X.size(0)] *)
  size0 : Input -> N;
  (** one iteration over the loader: the batches it yields, and the loader
      afterwards (a shuffling loader yields another order next time) *)
  dl_iter : Loader -> list (Input * Label) * Loader;
  (** [Metrics(device, 2)], [reset], [update], [compute] *)
  metrics_new : Metrics;
  m_reset : Metrics -> Metrics;
  m_update : Metrics -> Logits -> Label -> Metrics;
  m_compute : Metrics -> MetricDict;
  (** the entry [DICE_SCORE] of a computed metric dictionary *)
  dice_score : MetricDict -> float;
  (** [scheduler.step(value)] *)
  sched_step : Sched -> float -> Sched
}.

Section Driver.

Context {C : Collaborators}.

Definition Batch : Type := (Input * Label)%type.

(** ** The network object *)

Record Net : Type := {
  params : Params;
  training : bool
}.

(** [model.train()] and [model.eval()] set the flag. *)
Definition net_train (n : Net) : Net :=
  {| params := params n; training := true |}.

Definition net_eval (n : Net) : Net :=
  {| params := params n; training := false |}.

(** [model(X)] *)
Definition call_model (n : Net) (X : Input) : Logits :=
  forward (params n) (training n) X.

Definition with_params (p : Params) (n : Net) : Net :=
  {| params := p; training := training n |}.

(** ** [Solver.train] *)

(** The objects [train] was handed (they are the caller's, so what the
    pass does to them the caller sees) and its local variables. *)
Record train_frame : Type := {
  tr_model : Net;
  tr_optimizer : Optim;
  tr_metrics : Metrics;
  tr_loss_sum : num;
  tr_loss_total : num;
  tr_avg_sum : num;
  tr_train_loss : list float
}.

(** One turn of the loop of [train]. *)
Definition train_batch (batch_idx : Z) (b : Batch) : M train_frame unit :=
  fun st =>
    let '(X, Y) := b in
    let model0 := with_params (zero_grad (tr_optimizer st) (params (tr_model st)))
                              (tr_model st) in
    let batch_size := PyInt (Z.of_N (size0 X)) in
    let logits := call_model model0 X in
    let loss := criterion logits Y in
    let model1 := with_params (backward loss (params model0)) model0 in
    let '(optimizer1, params2) := opt_step (tr_optimizer st) (params model1) in
    let model2 := with_params params2 model1 in
    let l := PyFloat (item loss) in
    let avg_sum := add (tr_avg_sum st) l in
    let loss_sum := add (tr_loss_sum st) (mul l batch_size) in
    let loss_total := add (tr_loss_total st) batch_size in
    let st1 := {| tr_model := model2;
                  tr_optimizer := optimizer1;
                  tr_metrics := tr_metrics st;
                  tr_loss_sum := loss_sum;
                  tr_loss_total := loss_total;
                  tr_avg_sum := avg_sum;
                  tr_train_loss := tr_train_loss st |} in
    match truediv avg_sum (PyInt (batch_idx + 1)) with
    | Raise e => (st1, Raise e)
    | Ok a =>
        ({| tr_model := model2;
            tr_optimizer := optimizer1;
            tr_metrics := m_update (tr_metrics st) logits Y;
            tr_loss_sum := loss_sum;
            tr_loss_total := loss_total;
            tr_avg_sum := avg_sum;
            tr_train_loss := tr_train_loss st ++ [a] |}, Ok tt)
    end.

Definition train_enter (model : Net) (optimizer : Optim) (metrics : Metrics)
  : train_frame :=
  {| tr_model := net_train model;
     tr_optimizer := optimizer;
     tr_metrics := metrics;
     tr_loss_sum := PyInt 0;
     tr_loss_total := PyInt 0;
     tr_avg_sum := PyInt 0;
     tr_train_loss := [] |}.

(** The body of [train] on the batches the loader yields. *)
Definition train_body (batches : list Batch) : M train_frame (list float * float) :=
  for_enumerate train_batch 0 batches ;;;
  train_loss <- gets tr_train_loss ;;
  loss_sum <- gets tr_loss_sum ;;
  loss_total <- gets tr_loss_total ;;
  mean <- lift (truediv loss_sum loss_total) ;;
  ret (train_loss, mean).

(** The objects a pass leaves behind. *)
Record train_objects : Type := {
  to_model : Net;
  to_optimizer : Optim;
  to_dataloader : Loader;
  to_metrics : Metrics
}.

Definition train (model : Net) (optimizer : Optim) (dataloader : Loader)
           (metrics : Metrics) : train_objects * result (list float * float) :=
  let '(batches, dataloader') := dl_iter dataloader in
  let '(st, r) := train_body batches (train_enter model optimizer metrics) in
  ({| to_model := tr_model st;
      to_optimizer := tr_optimizer st;
      to_dataloader := dataloader';
      to_metrics := tr_metrics st |}, r).

(** ** [Solver.evaluate] *)

Record eval_frame : Type := {
  ev_model : Net;
  ev_metrics : Metrics;
  ev_total : num;
  ev_all_loss : num;
  ev_avg_sum : num
}.

(** One turn of the loop of [evaluate]. *)
Definition evaluate_batch (batch_idx : Z) (b : Batch) : M eval_frame unit :=
  fun st =>
    let '(X, Y) := b in
    let batch_size := PyInt (Z.of_N (size0 X)) in
    let logits := call_model (ev_model st) X in
    let loss := criterion logits Y in
    let l := PyFloat (item loss) in
    let avg_sum := add (ev_avg_sum st) l in
    let all_loss := add (ev_all_loss st) (mul l batch_size) in
    let total := add (ev_total st) batch_size in
    ({| ev_model := ev_model st;
        ev_metrics := m_update (ev_metrics st) logits Y;
        ev_total := total;
        ev_all_loss := all_loss;
        ev_avg_sum := avg_sum |}, Ok tt).

Definition evaluate_enter (model : Net) (metrics : Metrics) : eval_frame :=
  {| ev_model := net_eval model;
     ev_metrics := metrics;
     ev_total := PyInt 0;
     ev_all_loss := PyInt 0;
     ev_avg_sum := PyInt 0 |}.

Definition evaluate_body (batches : list Batch) : M eval_frame float :=
  for_enumerate evaluate_batch 0 batches ;;;
  all_loss <- gets ev_all_loss ;;
  total <- gets ev_total ;;
  lift (truediv all_loss total).

Record eval_objects : Type := {
  eo_model : Net;
  eo_dataloader : Loader;
  eo_metrics : Metrics
}.

(** [evaluate] with its six parameters without default bound; the first,
    [self], is not used by the body. *)
Definition evaluate (model : Net) (dataloader : Loader) (metrics : Metrics)
  : eval_objects * result float :=
  let '(batches, dataloader') := dl_iter dataloader in
  let '(st, r) := evaluate_body batches (evaluate_enter model metrics) in
  ({| eo_model := ev_model st;
      eo_dataloader := dataloader';
      eo_metrics := ev_metrics st |}, r).

(** ** The driver object *)

(** The attributes [__init__] sets.  [scheduler] is an object or [None].
    The criterion and the device are not state. *)
Record Solver : Type := {
  epochs : Z;
  model : Net;
  train_loader : Loader;
  val_loader : Loader;
  optimizer : Optim;
  scheduler : option Sched;
  train_metrics : Metrics;
  val_metrics : Metrics;
  train_loss_history : list float;
  val_loss_history : list float;
  train_loss_batch : list float;
  best_model : Net;
  best_dice_score : float
}.

(** [Solver(model, epochs, device, train_loader, val_loader, criterion,
    optimizer, scheduler)].  A deep copy of a value is the value. *)
Definition init (model0 : Net) (epochs0 : Z) (train_loader0 val_loader0 : Loader)
           (optimizer0 : Optim) (scheduler0 : option Sched) : Solver :=
  {| epochs := epochs0;
     model := model0;
     train_loader := train_loader0;
     val_loader := val_loader0;
     optimizer := optimizer0;
     scheduler := scheduler0;
     train_metrics := metrics_new;
     val_metrics := metrics_new;
     train_loss_history := [];
     val_loss_history := [];
     train_loss_batch := [];
     best_model := model0;
     best_dice_score := f0 |}.

Definition set_train_metrics (m : Metrics) (s : Solver) : Solver :=
  {| epochs := epochs s; model := model s; train_loader := train_loader s;
     val_loader := val_loader s; optimizer := optimizer s;
     scheduler := scheduler s; train_metrics := m;
     val_metrics := val_metrics s;
     train_loss_history := train_loss_history s;
     val_loss_history := val_loss_history s;
     train_loss_batch := train_loss_batch s;
     best_model := best_model s; best_dice_score := best_dice_score s |}.

Definition set_val_metrics (m : Metrics) (s : Solver) : Solver :=
  {| epochs := epochs s; model := model s; train_loader := train_loader s;
     val_loader := val_loader s; optimizer := optimizer s;
     scheduler := scheduler s; train_metrics := train_metrics s;
     val_metrics := m;
     train_loss_history := train_loss_history s;
     val_loss_history := val_loss_history s;
     train_loss_batch := train_loss_batch s;
     best_model := best_model s; best_dice_score := best_dice_score s |}.

Definition set_train_loss_batch (l : list float) (s : Solver) : Solver :=
  {| epochs := epochs s; model := model s; train_loader := train_loader s;
     val_loader := val_loader s; optimizer := optimizer s;
     scheduler := scheduler s; train_metrics := train_metrics s;
     val_metrics := val_metrics s;
     train_loss_history := train_loss_history s;
     val_loss_history := val_loss_history s;
     train_loss_batch := l;
     best_model := best_model s; best_dice_score := best_dice_score s |}.

Definition set_train_loss_history (l : list float) (s : Solver) : Solver :=
  {| epochs := epochs s; model := model s; train_loader := train_loader s;
     val_loader := val_loader s; optimizer := optimizer s;
     scheduler := scheduler s; train_metrics := train_metrics s;
     val_metrics := val_metrics s;
     train_loss_history := l;
     val_loss_history := val_loss_history s;
     train_loss_batch := train_loss_batch s;
     best_model := best_model s; best_dice_score := best_dice_score s |}.

Definition set_val_loss_history (l : list float) (s : Solver) : Solver :=
  {| epochs := epochs s; model := model s; train_loader := train_loader s;
     val_loader := val_loader s; optimizer := optimizer s;
     scheduler := scheduler s; train_metrics := train_metrics s;
     val_metrics := val_metrics s;
     train_loss_history := train_loss_history s;
     val_loss_history := l;
     train_loss_batch := train_loss_batch s;
     best_model := best_model s; best_dice_score := best_dice_score s |}.

Definition set_scheduler (o : option Sched) (s : Solver) : Solver :=
  {| epochs := epochs s; model := model s; train_loader := train_loader s;
     val_loader := val_loader s; optimizer := optimizer s;
     scheduler := o; train_metrics := train_metrics s;
     val_metrics := val_metrics s;
     train_loss_history := train_loss_history s;
     val_loss_history := val_loss_history s;
     train_loss_batch := train_loss_batch s;
     best_model := best_model s; best_dice_score := best_dice_score s |}.

Definition set_best (score : float) (snapshot : Net) (s : Solver) : Solver :=
  {| epochs := epochs s; model := model s; train_loader := train_loader s;
     val_loader := val_loader s; optimizer := optimizer s;
     scheduler := scheduler s; train_metrics := train_metrics s;
     val_metrics := val_metrics s;
     train_loss_history := train_loss_history s;
     val_loss_history := val_loss_history s;
     train_loss_batch := train_loss_batch s;
     best_model := snapshot; best_dice_score := score |}.

(** What a training pass did to the objects it was handed is seen through
    the attributes of [self] that name them. *)
Definition after_train (o : train_objects) (s : Solver) : Solver :=
  {| epochs := epochs s; model := to_model o;
     train_loader := to_dataloader o;
     val_loader := val_loader s; optimizer := to_optimizer o;
     scheduler := scheduler s; train_metrics := to_metrics o;
     val_metrics := val_metrics s;
     train_loss_history := train_loss_history s;
     val_loss_history := val_loss_history s;
     train_loss_batch := train_loss_batch s;
     best_model := best_model s; best_dice_score := best_dice_score s |}.

Definition after_evaluate (o : eval_objects) (s : Solver) : Solver :=
  {| epochs := epochs s; model := eo_model o;
     train_loader := train_loader s;
     val_loader := eo_dataloader o; optimizer := optimizer s;
     scheduler := scheduler s; train_metrics := train_metrics s;
     val_metrics := eo_metrics o;
     train_loss_history := train_loss_history s;
     val_loss_history := val_loss_history s;
     train_loss_batch := train_loss_batch s;
     best_model := best_model s; best_dice_score := best_dice_score s |}.

(** ** [Solver.fit] *)

(** What the attribute [evaluate] of the instance does when called with
    the five arguments of line 54: [fit] finds it on [self], so a
    subclass decides. *)
Definition evaluate_attr : Type :=
  Net -> Loader -> Metrics -> eval_objects * result float.

(** The attribute as class [Solver] defines it: a static method of seven
    parameters, one with a default, given five arguments. *)
Definition Solver_evaluate : evaluate_attr :=
  fun model0 dataloader metrics =>
    match check_call evaluate_signature evaluate_kind 5 with
    | Raise e =>
        ({| eo_model := model0; eo_dataloader := dataloader;
            eo_metrics := metrics |}, Raise e)
    | Ok _ => evaluate model0 dataloader metrics
    end.

(** [self.train(self.model, self.criterion, self.optimizer, self.device,
    self.train_loader, self.train_metrics)] *)
Definition call_train : M Solver (list float * float) :=
  fun s =>
    match check_call train_signature train_kind 6 with
    | Raise e => (s, Raise e)
    | Ok _ =>
        let '(o, r) := train (model s) (optimizer s) (train_loader s)
                             (train_metrics s) in
        (after_train o s, r)
    end.

(** [self.evaluate(self.model, self.criterion, self.device,
    self.val_loader, self.val_metrics)] *)
Definition call_evaluate (self_evaluate : evaluate_attr) : M Solver float :=
  fun s =>
    let '(o, r) := self_evaluate (model s) (val_loader s) (val_metrics s) in
    (after_evaluate o s, r).

(** [None] is falsy; a scheduler object defines neither [__bool__] nor
    [__len__] and is truthy. *)
Definition truthy (o : option Sched) : bool :=
  match o with
  | None => false
  | Some _ => true
  end.

(** The attribute [step] of [self.scheduler]. *)
Definition getattr_step (o : option Sched) : result (float -> Sched) :=
  match o with
  | None => Raise AttributeError
  | Some sch => Ok (sched_step sch)
  end.

(** Lines 59-60: [if not self.scheduler: self.scheduler.step(self.val_loss_history[-1])] *)
Definition scheduler_guard : M Solver unit :=
  sch <- gets scheduler ;;
  if negb (truthy sch) then
    step <- lift (getattr_step sch) ;;
    hist <- gets val_loss_history ;;
    v <- lift (last_item hist) ;;
    modify (set_scheduler (Some (step v)))
  else ret tt.

(** Lines 62-64 *)
Definition keep_best (val_agg_metrics : MetricDict) : M Solver unit :=
  best <- gets best_dice_score ;;
  if fltb best (dice_score val_agg_metrics) then
    current <- gets model ;;
    modify (set_best (dice_score val_agg_metrics) current)
  else ret tt.

(** Lines 66-68: the two summary lines; the second reads
    [self.train_loss_batch[-1]]. *)
Definition report : M Solver unit :=
  batch <- gets train_loss_batch ;;
  _ <- lift (last_item batch) ;;
  ret tt.

Section Dispatch.

Variable self_evaluate : evaluate_attr.

(** One turn of the loop of [fit]. *)
Definition epoch : M Solver unit :=
  modify (fun s => set_train_metrics (m_reset (train_metrics s)) s) ;;;
  modify (fun s => set_val_metrics (m_reset (val_metrics s)) s) ;;;
  t <- call_train ;;
  modify (fun s => set_train_loss_batch (train_loss_batch s ++ fst t) s) ;;;
  modify (fun s => set_train_loss_history (train_loss_history s ++ [snd t]) s) ;;;
  v <- call_evaluate self_evaluate ;;
  modify (fun s => set_val_loss_history (val_loss_history s ++ [v]) s) ;;;
  train_agg_metrics <- gets (fun s => m_compute (train_metrics s)) ;;
  val_agg_metrics <- gets (fun s => m_compute (val_metrics s)) ;;
  scheduler_guard ;;;
  keep_best val_agg_metrics ;;;
  report.

(** [for epoch in range(1, self.epochs + 1)] *)
Definition fit_with : M Solver unit :=
  fun s => repeat_m epoch (Z.to_nat (epochs s)) s.

(** The states in which the first epochs that complete end, in order,
    for at most [n] epochs. *)
Fixpoint epoch_states (n : nat) (s : Solver) : list Solver :=
  match n with
  | O => []
  | S n' =>
      match epoch s with
      | (s', Ok _) => s' :: epoch_states n' s'
      | (_, Raise _) => []
      end
  end.

(** The number of batches the training loader yields in each of the
    first epochs that complete, for at most [n] epochs. *)
Fixpoint train_batch_counts (n : nat) (s : Solver) : list nat :=
  match n with
  | O => []
  | S n' =>
      match epoch s with
      | (s', Ok _) =>
          length (fst (dl_iter (train_loader s))) :: train_batch_counts n' s'
      | (_, Raise _) => []
      end
  end.

(** [completes s l s']: from [s], as many epochs as [l] is long complete
    one after the other, ending in the states [l], the last being [s']. *)
Inductive completes : Solver -> list Solver -> Solver -> Prop :=
| completes_none (s : Solver) : completes s [] s
| completes_more (s s1 s' : Solver) (l : list Solver) :
    epoch s = (s1, Ok tt) ->
    completes s1 l s' ->
    completes s (s1 :: l) s'.

End Dispatch.

(** [fit] of class [Solver] itself. *)
Definition fit : M Solver unit := fit_with Solver_evaluate.

(** The validation Dice score of the epoch that ended in [s]. *)
Definition observed_dice (s : Solver) : float :=
  dice_score (m_compute (val_metrics s)).

(** The driver at the end of an epoch that completes, from the driver [s]
    at its start, what the training pass left and returned ([o], [t]) and
    what the evaluation left and returned ([o'], [v]). *)
Definition epoch_end (s : Solver) (o : train_objects) (t : list float * float)
           (o' : eval_objects) (v : float) : Solver :=
  let dice := dice_score (m_compute (eo_metrics o')) in
  {| epochs := epochs s;
     model := eo_model o';
     train_loader := to_dataloader o;
     val_loader := eo_dataloader o';
     optimizer := to_optimizer o;
     scheduler := scheduler s;
     train_metrics := to_metrics o;
     val_metrics := eo_metrics o';
     train_loss_history := train_loss_history s ++ [snd t];
     val_loss_history := val_loss_history s ++ [v];
     train_loss_batch := train_loss_batch s ++ fst t;
     best_model :=
       if fltb (best_dice_score s) dice then eo_model o' else best_model s;
     best_dice_score :=
       if fltb (best_dice_score s) dice then dice else best_dice_score s |}.

(** ** What the passes are compared with *)

(** The loss and the size of each batch of a training pass, in order: the
    network a batch meets is the one the optimizer left after the batch
    before. *)
Fixpoint train_trace (model0 : Net) (optimizer0 : Optim) (bs : list Batch)
  : list (float * N) :=
  match bs with
  | [] => []
  | (X, Y) :: bs' =>
      let model1 := with_params (zero_grad optimizer0 (params model0)) model0 in
      let loss := criterion (call_model model1 X) Y in
      let '(optimizer1, params2) :=
        opt_step optimizer0 (backward loss (params model1)) in
      (item loss, size0 X) :: train_trace (with_params params2 model1) optimizer1 bs'
  end.

(** The loss and the size of each batch of an evaluation pass. *)
Definition eval_trace (model0 : Net) (bs : list Batch) : list (float * N) :=
  map (fun b : Batch => (item (criterion (call_model model0 (fst b)) (snd b)),
                         size0 (fst b))) bs.

(** Sum of [xs], added from the left to the integer 0. *)
Definition sum_from (a : num) (xs : list num) : num := fold_left add xs a.

Definition weight (lb : float * N) : num :=
  mul (PyFloat (fst lb)) (PyInt (Z.of_N (snd lb))).

Definition size_of (lb : float * N) : num := PyInt (Z.of_N (snd lb)).

(** The batch-size-weighted mean of the losses: the sum of loss times size
    divided by the sum of the sizes. *)
Definition weighted_mean (lbs : list (float * N)) : result float :=
  truediv (sum_from (PyInt 0) (map weight lbs))
          (sum_from (PyInt 0) (map size_of lbs)).

(** The unweighted mean of the first [k] of the losses [ls]. *)
Definition running_mean (ls : list float) (k : nat) : result float :=
  truediv (sum_from (PyInt 0) (map PyFloat (firstn k ls)))
          (PyInt (Z.of_nat k)).

End Driver.

(** ** A small concrete set of collaborators

    The parameters are one integer weight; a batch carries its
    size and one feature; the logits are feature times weight and the loss
    is the logits; every optimizer step adds one to the weight.  The loader
    holds the batch lists of the coming iterations and rotates them.  The
    aggregator keeps the logits it was fed, and its Dice score is the last
    of them. *)

Module Toy.

Definition rotate {A : Type} (l : list (list A)) : list A * list (list A) :=
  match l with
  | [] => ([], [])
  | bs :: rest => (bs, rest ++ [bs])
  end.

#[local] Instance collaborators : Collaborators := {|
  Params := Z;
  Optim := Z;
  Loader := list (list ((N * float) * unit));
  Metrics := list float;
  Sched := Z;
  Input := N * float;
  Label := unit;
  Logits := float;
  Loss := float;
  MetricDict := float;
  forward := fun w _ x => fmul (snd x) (float_of_int w);
  criterion := fun lg _ => lg;
  item := fun l => l;
  zero_grad := fun _ n => n;
  backward := fun _ n => n;
  opt_step := fun o w => (o + 1, w + 1);
  size0 := fun x => fst x;
  dl_iter := rotate;
  metrics_new := [];
  m_reset := fun _ => [];
  m_update := fun m lg _ => lg :: m;
  m_compute := fun m => hd f0 m;
  dice_score := fun d => d;
  sched_step := fun s _ => s + 1
|}.

(** The network with weight 1, in training mode. *)
Definition net : Net := {| params := 1; training := true |}.

Definition batch (size : N) (feature : float) : (N * float) * unit :=
  ((size, feature), tt).

(** Sizes 2 and 3, features 1.0 and 2.0. *)
Definition two_batches : list ((N * float) * unit) :=
  [batch 2 (lit 1 1); batch 3 (lit 2 1)].

(** One batch of size 3 and feature 0.1. *)
Definition one_batch : list ((N * float) * unit) := [batch 3 (lit 1 10)].

(** A driver for two epochs whose loaders yield [two_batches], then
    [one_batch], and so on in turn. *)
Definition solver (sch : option Z) : Solver :=
  init net 2 [two_batches; one_batch] [one_batch; two_batches] 0 sch.

(** The same driver after its two epochs, with [evaluate] reached with
    all its arguments. *)
Definition finished : Solver :=
  Eval vm_compute in fst (fit_with evaluate (solver (Some 7))).

(** A driver for one epoch whose training loader yields no batch. *)
Definition no_training_data : Solver :=
  init net 1 [[]] [one_batch] 0 (Some 7).

(** The driver [solver (Some 7)] after its first epoch, with [evaluate]
    reached with all its arguments. *)
Definition after_one : Solver :=
  Eval vm_compute in fst (epoch evaluate (solver (Some 7))).

(** Two batches, the second with a NaN feature. *)
Definition nan_batches : list ((N * float) * unit) :=
  [batch 2 (lit 1 1); batch 3 S754_nan].

End Toy.

(** * Properties *)

(** ** The order of floats *)

Section FloatOrder.

Lemma compare_key (x y : float) :
  is_nan x = false -> is_nan y = false ->
  match SFcompare x y with
  | Some Lt => key_lt (key x) (key y)
  | Some Eq => key x = key y
  | Some Gt => key_lt (key y) (key x)
  | None => False
  end.
Proof.
  unfold key_lt.
  destruct x as [sx | sx | | sx mx ex], y as [sy | sy | | sy my ey];
    cbn [is_nan]; intros Hx Hy; try discriminate;
    cbn [SFcompare key fst snd];
    try (destruct sx); try (destruct sy); cbn [fst snd];
    try reflexivity; try lia.
  - destruct (Z.compare_spec ex ey) as [E | E | E]; cbn [CompOpp fst snd].
    + subst ey. rewrite Pos.compare_cont_spec. cbn [Pos.switch_Eq].
      destruct (Pos.compare_spec mx my) as [M | M | M]; cbn [CompOpp].
      * now subst.
      * right. split; [reflexivity |]. right. split; [reflexivity | lia].
      * right. split; [reflexivity |]. right. split; [reflexivity | lia].
    + right. split; [reflexivity |]. left. lia.
    + right. split; [reflexivity |]. left. lia.
  - destruct (Z.compare_spec ex ey) as [E | E | E]; cbn [fst snd].
    + subst ey. rewrite Pos.compare_cont_spec. cbn [Pos.switch_Eq].
      destruct (Pos.compare_spec mx my) as [M | M | M].
      * now subst.
      * right. split; [reflexivity |]. right. split; [reflexivity | lia].
      * right. split; [reflexivity |]. right. split; [reflexivity | lia].
    + right. split; [reflexivity |]. left. lia.
    + right. split; [reflexivity |]. left. lia.
Qed.

Lemma key_lt_irrefl a : ~ key_lt a a.
Proof. unfold key_lt. lia. Qed.

Lemma key_lt_trans a b c : key_lt a b -> key_lt b c -> key_lt a c.
Proof. unfold key_lt. lia. Qed.

Lemma fltb_not_nan (x y : float) :
  fltb x y = true -> is_nan x = false /\ is_nan y = false.
Proof. destruct x, y; cbn; intros H; try discriminate; now split. Qed.

Lemma fleb_not_nan (x y : float) :
  fleb x y = true -> is_nan x = false /\ is_nan y = false.
Proof. destruct x, y; cbn; intros H; try discriminate; now split. Qed.

Lemma fleb_key (x y : float) :
  is_nan x = false -> is_nan y = false ->
  (fleb x y = true <-> key_lt (key x) (key y) \/ key x = key y).
Proof.
  intros Hx Hy. pose proof (compare_key x y Hx Hy) as H.
  unfold fleb, SFleb. destruct (SFcompare x y) as [[| |] |].
  - split; [now right | reflexivity].
  - split; [now left | reflexivity].
  - split; [discriminate |]. intros [K | K].
    + elim (key_lt_irrefl (key x)). eapply key_lt_trans; eassumption.
    + rewrite K in H. now elim (key_lt_irrefl (key y)).
  - elim H.
Qed.

Lemma fltb_key (x y : float) :
  is_nan x = false -> is_nan y = false ->
  (fltb x y = true <-> key_lt (key x) (key y)).
Proof.
  intros Hx Hy. pose proof (compare_key x y Hx Hy) as H.
  unfold fltb, SFltb. destruct (SFcompare x y) as [[| |] |].
  - split; [discriminate |]. intros K. rewrite H in K.
    now elim (key_lt_irrefl (key y)).
  - split; [now intros _ | reflexivity].
  - split; [discriminate |]. intros K.
    elim (key_lt_irrefl (key x)). eapply key_lt_trans; eassumption.
  - elim H.
Qed.

Lemma feqb_key (x y : float) :
  is_nan x = false -> is_nan y = false ->
  (feqb x y = true <-> key x = key y).
Proof.
  intros Hx Hy. pose proof (compare_key x y Hx Hy) as H.
  unfold feqb, SFeqb. destruct (SFcompare x y) as [[| |] |].
  - split; [now intros _ | reflexivity].
  - split; [discriminate |]. intros K. rewrite K in H.
    now elim (key_lt_irrefl (key y)).
  - split; [discriminate |]. intros K. rewrite K in H.
    now elim (key_lt_irrefl (key y)).
  - elim H.
Qed.

Lemma fleb_refl (x : float) : is_nan x = false -> fleb x x = true.
Proof. intros Hx. apply fleb_key; [assumption | assumption | now right]. Qed.

Lemma fltb_fleb (x y : float) : fltb x y = true -> fleb x y = true.
Proof.
  unfold fltb, fleb, SFltb, SFleb.
  destruct (SFcompare x y) as [[| |] |]; congruence.
Qed.

Lemma fleb_trans (x y z : float) :
  fleb x y = true -> fleb y z = true -> fleb x z = true.
Proof.
  intros Hxy Hyz.
  destruct (fleb_not_nan _ _ Hxy) as [Hx Hy].
  destruct (fleb_not_nan _ _ Hyz) as [_ Hz].
  apply fleb_key in Hxy; [| assumption | assumption].
  apply fleb_key in Hyz; [| assumption | assumption].
  apply fleb_key; [assumption | assumption |].
  destruct Hxy as [A | A], Hyz as [B | B].
  - left. eapply key_lt_trans; eassumption.
  - left. now rewrite <- B.
  - left. now rewrite A.
  - right. congruence.
Qed.

(** Not below: [y < x] is false when [x <= y]. *)
Lemma fleb_not_fltb (x y : float) : fleb x y = true -> fltb y x = false.
Proof.
  intros H. destruct (fleb_not_nan _ _ H) as [Hx Hy].
  apply fleb_key in H; [| assumption | assumption].
  destruct (fltb y x) eqn:E; [| reflexivity].
  apply fltb_key in E; [| assumption | assumption].
  destruct H as [K | K].
  - elim (key_lt_irrefl (key x)). eapply key_lt_trans; eassumption.
  - rewrite K in E. now elim (key_lt_irrefl (key y)).
Qed.

(** Of two numbers one is at most the other. *)
Lemma fleb_total (x y : float) :
  is_nan x = false -> is_nan y = false -> fltb x y = false -> fleb y x = true.
Proof.
  intros Hx Hy H. pose proof (compare_key x y Hx Hy) as K.
  apply fleb_key; [assumption | assumption |].
  unfold fltb, SFltb in H.
  destruct (SFcompare x y) as [[| |] |]; try discriminate.
  - now right.
  - now left.
  - elim K.
Qed.

Lemma fleb_antisym (x y : float) :
  fleb x y = true -> fleb y x = true -> feqb x y = true.
Proof.
  intros Hxy Hyx. destruct (fleb_not_nan _ _ Hxy) as [Hx Hy].
  apply fleb_key in Hxy; [| assumption | assumption].
  apply fleb_key in Hyx; [| assumption | assumption].
  apply feqb_key; [assumption | assumption |].
  destruct Hxy as [A | A]; [| exact A].
  destruct Hyx as [B | B]; [| now symmetry].
  elim (key_lt_irrefl (key x)). eapply key_lt_trans; eassumption.
Qed.

End FloatOrder.

(** ** Exact products and quotients *)

Section ByOne.

Lemma float_of_int_1 : float_of_int 1 = S754_finite false 4503599627370496 (-52).
Proof. reflexivity. Qed.

Lemma div_eucl_pair (a b : Z) : Z.div_eucl a b = (a / b, a mod b).
Proof. unfold Z.div, Z.modulo. now destruct (Z.div_eucl a b). Qed.

(** Rounding a number that is a float already gives it back. *)
Lemma round_exact (s : bool) (m : positive) (e : Z) :
  bounded prec emax m e = true ->
  binary_round_aux prec emax s (Zpos m) e loc_Exact = S754_finite s m e.
Proof.
  intros Hb. unfold bounded, canonical_mantissa in Hb.
  apply andb_prop in Hb. destruct Hb as [Hc He]. apply Z.eqb_eq in Hc.
  unfold binary_round_aux, shr_fexp.
  cbn [Zdigits2 shr_record_of_loc]. rewrite Hc, Z.sub_diag.
  cbn [shr shr_m loc_of_shr_record round_nearest_even Zdigits2].
  rewrite Hc, Z.sub_diag. cbn [shr shr_m]. now rewrite He.
Qed.

Lemma fmul_one_finite (s : bool) (m : positive) (e : Z) :
  bounded prec emax m e = true ->
  fmul (S754_finite s m e) (float_of_int 1) = S754_finite s m e.
Proof.
  intros Hb. rewrite float_of_int_1. unfold fmul, SFmul.
  unfold bounded, canonical_mantissa in Hb.
  apply andb_prop in Hb. destruct Hb as [Hc He].
  apply Z.eqb_eq in Hc.
  rewrite xorb_false_r, Pos.mul_comm.
  cbn [Pos.mul].
  unfold binary_round_aux, shr_fexp.
  cbn [Zdigits2 digits2_pos shr_record_of_loc].
  set (d := digits2_pos m) in *.
  match goal with
  | |- context [fexp prec emax ?a] =>
      replace a with (Zpos d + e) by (rewrite ?Pos2Z.inj_succ; lia)
  end.
  rewrite Hc.
  replace (e - (e + -52)) with 52 by lia.
  cbn [shr iter_pos shr_1 orb].
  cbn [shr_m loc_of_shr_record round_nearest_even Zdigits2].
  replace (e + -52 + 52) with e by lia.
  fold d. rewrite Hc, Z.sub_diag. cbn [shr shr_m].
  now rewrite He.
Qed.

Lemma fdiv_one_finite (s : bool) (m : positive) (e : Z) :
  bounded prec emax m e = true ->
  fdiv (S754_finite s m e) (float_of_int 1) = S754_finite s m e.
Proof.
  intros Hb. rewrite float_of_int_1. unfold fdiv, SFdiv.
  pose proof Hb as Hb'.
  unfold bounded, canonical_mantissa in Hb.
  apply andb_prop in Hb. destruct Hb as [Hc He].
  apply Z.eqb_eq in Hc. apply Z.leb_le in He.
  rewrite xorb_false_r.
  unfold SFdiv_core_binary.
  change (Zdigits2 4503599627370496) with 53.
  cbn [Zdigits2].
  set (d := digits2_pos m) in *.
  assert (Hd : 0 < Zpos d) by lia.
  unfold fexp, emin in *.
  change IntDef.Z.max with Z.max in *. change IntDef.Z.min with Z.min.
  change IntDef.Z.shiftl with Z.shiftl.
  change IntDef.Z.div_eucl with Z.div_eucl.
  unfold prec, emax in *.
  assert (Hs :
    e - -52 - Z.min (Z.max (Z.pos d + e - (53 + -52) - 53) (3 - 1024 - 53))
                    (e - -52) = 52
    /\ Z.min (Z.max (Z.pos d + e - (53 + -52) - 53) (3 - 1024 - 53))
             (e - -52) = e
    \/ e - -52 - Z.min (Z.max (Z.pos d + e - (53 + -52) - 53) (3 - 1024 - 53))
                       (e - -52) = 53
       /\ Z.min (Z.max (Z.pos d + e - (53 + -52) - 53) (3 - 1024 - 53))
                (e - -52) = e - 1
       /\ Zpos d = 53) by lia.
  destruct Hs as [[-> ->] | (-> & -> & Ed)].
  - rewrite div_eucl_pair, Z.shiftl_mul_pow2 by lia.
    rewrite Z.div_mul, Z.mod_mul by lia.
    change (new_location 4503599627370496 0) with loc_Exact.
    now apply round_exact.
  - rewrite div_eucl_pair, Z.shiftl_mul_pow2 by lia.
    change (2 ^ 53) with (2 * 4503599627370496).
    rewrite Z.mul_assoc, Z.div_mul, Z.mod_mul by lia.
    change (new_location 4503599627370496 0) with loc_Exact.
    replace (Zpos m * 2) with (Zpos m~0) by lia.
    unfold binary_round_aux, shr_fexp.
    cbn [Zdigits2 digits2_pos shr_record_of_loc]. fold d.
    unfold fexp, emin, prec, emax. change IntDef.Z.max with Z.max.
    replace (Z.max _ _ - (e - 1)) with 1 by lia.
    cbn [shr iter_pos shr_1 orb].
    cbn [shr_m loc_of_shr_record round_nearest_even Zdigits2]. fold d.
    replace (e - 1 + 1) with e by lia.
    unfold fexp, emin, prec, emax. change IntDef.Z.max with Z.max.
    replace (Z.max _ _ - e) with 0 by lia.
    cbn [shr shr_m]. apply Z.leb_le in He. now rewrite He.
Qed.

(** [(0 + x * 1) / 1] is [x], for every float but the negative zero (which
    the addition of 0 turns into the positive zero). *)
Lemma times_one_over_one (x : float) :
  valid_binary prec emax x = true ->
  x <> S754_zero true ->
  fdiv (fadd f0 (fmul x (float_of_int 1))) (float_of_int 1) = x.
Proof.
  intros Hv Hx. destruct x as [[|] | s | | s m e].
  - now elim Hx.
  - reflexivity.
  - destruct s; reflexivity.
  - reflexivity.
  - cbn [valid_binary] in Hv. rewrite (fmul_one_finite s m e Hv).
    change (fadd f0 (S754_finite s m e)) with (S754_finite s m e).
    now apply fdiv_one_finite.
Qed.

End ByOne.

(** ** Loops *)

Lemma bind_ok_inv {S A B : Type} (c : M S A) (k : A -> M S B) s s' b :
  bind c k s = (s', Ok b) ->
  exists s1 a, c s = (s1, Ok a) /\ k a s1 = (s', Ok b).
Proof.
  unfold bind. destruct (c s) as [s1 [a | e]]; intros H.
  - exists s1, a. split; [reflexivity | exact H].
  - discriminate H.
Qed.

Lemma bind_run {S A B : Type} (c : M S A) (k : A -> M S B) s s1 a :
  c s = (s1, Ok a) -> bind c k s = k a s1.
Proof. unfold bind. intros ->. reflexivity. Qed.

Lemma bind_raise {S A B : Type} (c : M S A) (k : A -> M S B) s s1 e :
  c s = (s1, Raise e) -> bind c k s = (s1, Raise e).
Proof. unfold bind. intros ->. reflexivity. Qed.

Lemma truediv_count (a : num) (i : Z) :
  0 <= i -> truediv a (PyInt (i + 1)) = Ok (quot a (PyInt (i + 1))).
Proof.
  intros Hi. unfold truediv. simpl.
  destruct (Z.eqb_spec (i + 1) 0) as [E | _]; [lia | reflexivity].
Qed.

Lemma running_from_length (ls : list float) :
  forall a i, length (running_from a i ls) = length ls.
Proof.
  induction ls as [| l ls IH]; intros a i; simpl; [reflexivity |].
  now rewrite IH.
Qed.

Lemma running_from_nth (ls : list float) :
  forall a i k, (k < length ls)%nat ->
    nth_error (running_from a i ls) k =
    Some (quot (sum_from a (map PyFloat (firstn (S k) ls)))
               (PyInt (i + Z.of_nat k + 1))).
Proof.
  induction ls as [| l ls IH]; intros a i k Hk; simpl in Hk; [lia |].
  destruct k as [| k].
  - simpl. now rewrite Z.add_0_r.
  - cbn [running_from nth_error]. rewrite IH by lia.
    cbn [firstn map sum_from fold_left].
    do 3 f_equal. lia.
Qed.

Section Passes.

Context {C : Collaborators}.

(** The loop of [train] never raises; its accumulators end as the sums
    over the trace of the pass. *)
Lemma train_loop_run (bs : list Batch) :
  forall i st, 0 <= i ->
    exists st',
      for_enumerate train_batch i bs st = (st', Ok tt)
      /\ tr_loss_sum st' =
           sum_from (tr_loss_sum st)
             (map weight (train_trace (tr_model st) (tr_optimizer st) bs))
      /\ tr_loss_total st' =
           sum_from (tr_loss_total st)
             (map size_of (train_trace (tr_model st) (tr_optimizer st) bs))
      /\ tr_train_loss st' =
           tr_train_loss st ++
           running_from (tr_avg_sum st) i
             (map fst (train_trace (tr_model st) (tr_optimizer st) bs)).
Proof.
  induction bs as [| [X Y] bs IH]; intros i st Hi.
  - exists st. simpl. rewrite app_nil_r. now repeat split.
  - cbn [for_enumerate train_trace].
    unfold bind at 1. unfold train_batch at 1.
    cbn [params with_params].
    destruct (opt_step (tr_optimizer st) _) as [optimizer1 params2].
    rewrite truediv_count by assumption.
    match goal with
    | |- context [for_enumerate train_batch (i + 1) bs ?st1] =>
        destruct (IH (i + 1) st1 ltac:(lia)) as (st' & Hrun & Hsum & Htot & Hlist)
    end.
    exists st'. cbn [tr_model tr_optimizer tr_loss_sum tr_loss_total
                     tr_avg_sum tr_train_loss] in *.
    split; [exact Hrun |].
    cbn [map fst snd]. rewrite Hsum, Htot, Hlist.
    repeat split.
    now rewrite <- app_assoc.
Qed.

Lemma evaluate_loop_run (bs : list Batch) :
  forall i st,
    exists st',
      for_enumerate evaluate_batch i bs st = (st', Ok tt)
      /\ ev_model st' = ev_model st
      /\ ev_all_loss st' =
           sum_from (ev_all_loss st) (map weight (eval_trace (ev_model st) bs))
      /\ ev_total st' =
           sum_from (ev_total st) (map size_of (eval_trace (ev_model st) bs)).
Proof.
  induction bs as [| [X Y] bs IH]; intros i st.
  - exists st. simpl. now repeat split.
  - cbn [for_enumerate]. unfold bind at 1. unfold evaluate_batch at 1.
    match goal with
    | |- context [for_enumerate evaluate_batch (i + 1) bs ?st1] =>
        destruct (IH (i + 1) st1) as (st' & Hrun & Hmodel & Hsum & Htot)
    end.
    exists st'. cbn [ev_model ev_all_loss ev_total] in *.
    split; [exact Hrun |].
    split; [exact Hmodel |].
    unfold eval_trace in *. cbn [map fst snd]. now rewrite Hsum, Htot.
Qed.

(** What [train] returns, in one equation. *)
Lemma train_result (model0 : Net) (optimizer0 : Optim) (dataloader : Loader)
      (metrics : Metrics) :
  snd (train model0 optimizer0 dataloader metrics) =
  result_map
    (fun mean =>
       (running_from (PyInt 0) 0
          (map fst (train_trace (net_train model0) optimizer0
                      (fst (dl_iter dataloader)))), mean))
    (weighted_mean
       (train_trace (net_train model0) optimizer0 (fst (dl_iter dataloader)))).
Proof.
  unfold train. destruct (dl_iter dataloader) as [batches dataloader'].
  cbn [fst]. unfold train_body.
  destruct (train_loop_run batches 0 (train_enter model0 optimizer0 metrics))
    as (st' & Hrun & Hsum & Htot & Hlist); [lia |].
  cbn [train_enter tr_model tr_optimizer tr_loss_sum tr_loss_total
       tr_avg_sum tr_train_loss app] in Hsum, Htot, Hlist.
  rewrite (bind_run _ _ _ _ _ Hrun).
  unfold bind, gets, lift, ret. rewrite Hsum, Htot, Hlist.
  unfold weighted_mean.
  destruct (truediv _ _); reflexivity.
Qed.

(** What [evaluate] returns, and the network it leaves. *)
Lemma evaluate_result (model0 : Net) (dataloader : Loader) (metrics : Metrics) :
  snd (evaluate model0 dataloader metrics) =
  weighted_mean (eval_trace (net_eval model0) (fst (dl_iter dataloader)))
  /\ eo_model (fst (evaluate model0 dataloader metrics)) = net_eval model0
  /\ eo_dataloader (fst (evaluate model0 dataloader metrics)) =
     snd (dl_iter dataloader).
Proof.
  unfold evaluate. destruct (dl_iter dataloader) as [batches dataloader'].
  cbn [fst snd]. unfold evaluate_body.
  destruct (evaluate_loop_run batches 0 (evaluate_enter model0 metrics))
    as (st' & Hrun & Hmodel & Hsum & Htot).
  cbn [evaluate_enter ev_model ev_all_loss ev_total] in Hmodel, Hsum, Htot.
  rewrite (bind_run _ _ _ _ _ Hrun).
  unfold bind, gets, lift. rewrite Hsum, Htot.
  unfold weighted_mean. cbn [fst snd eo_model eo_dataloader].
  repeat split. exact Hmodel.
Qed.

End Passes.

(** ** One epoch *)

Section Epoch.

Context {C : Collaborators}.

Lemma last_item_app_ok {A : Type} (xs ys : list A) :
  ys <> [] -> exists y, last_item (xs ++ ys) = Ok y.
Proof.
  intros Hys. unfold last_item. rewrite rev_app_distr.
  destruct (rev ys) as [| y r] eqn:E.
  - apply (f_equal (@rev A)) in E. rewrite rev_involutive in E.
    now elim Hys.
  - exists y. reflexivity.
Qed.

Lemma weighted_mean_nil : weighted_mean [] = Raise ZeroDivisionError.
Proof. reflexivity. Qed.

(** A training pass that returns has seen at least one batch. *)
Lemma train_ok_nonempty model0 optimizer0 dataloader metrics t :
  snd (train model0 optimizer0 dataloader metrics) = Ok t -> fst t <> [].
Proof.
  rewrite train_result.
  destruct (train_trace _ _ _) as [| lb tr] eqn:E.
  - rewrite weighted_mean_nil. discriminate.
  - destruct (weighted_mean _); [| discriminate].
    cbn [result_map]. intros [= <-]. cbn [fst map running_from]. discriminate.
Qed.

Variable self_evaluate : evaluate_attr.

(** How an epoch ends, by what its passes return. *)
Lemma epoch_cases (s : Solver) :
  let tr := train (model s) (optimizer s) (train_loader s)
                  (m_reset (train_metrics s)) in
  match snd tr with
  | Raise e =>
      snd (epoch self_evaluate s) = Raise e
      /\ train_loss_history (fst (epoch self_evaluate s)) = train_loss_history s
      /\ val_loss_history (fst (epoch self_evaluate s)) = val_loss_history s
  | Ok t =>
      let er := self_evaluate (to_model (fst tr)) (val_loader s)
                              (m_reset (val_metrics s)) in
      match snd er with
      | Raise e =>
          snd (epoch self_evaluate s) = Raise e
          /\ train_loss_history (fst (epoch self_evaluate s)) =
             train_loss_history s ++ [snd t]
          /\ val_loss_history (fst (epoch self_evaluate s)) = val_loss_history s
      | Ok v =>
          match scheduler s with
          | None => snd (epoch self_evaluate s) = Raise AttributeError
          | Some _ =>
              epoch self_evaluate s = (epoch_end s (fst tr) t (fst er) v, Ok tt)
          end
      end
  end.
Proof.
  cbv zeta.
  pose proof (train_ok_nonempty (model s) (optimizer s) (train_loader s)
                (m_reset (train_metrics s))) as Hne.
  unfold epoch, bind, modify, call_train, call_evaluate, gets.
  destruct s as [ep mdl tl vl opt sch tm vm tlh vlh tlb bm bd].
  cbn -[train last_item fltb] in *.
  destruct (train _ _ _ _) as [o [t | e]]; cbn -[last_item fltb] in *.
  2: { now repeat split. }
  destruct (self_evaluate _ _ _) as [o' [v | e]]; cbn -[last_item fltb].
  2: { now repeat split. }
  unfold scheduler_guard, keep_best, report, bind, gets, lift, modify, ret.
  destruct sch as [sch |]; cbn -[last_item fltb].
  2: reflexivity.
  destruct (last_item_app_ok tlb (fst t) (Hne t eq_refl)) as [y Hy].
  unfold epoch_end. cbn -[last_item fltb].
  destruct (fltb bd _); cbn -[last_item fltb]; rewrite Hy; reflexivity.
Qed.

Lemma epoch_ok_inv (s s' : Solver) :
  epoch self_evaluate s = (s', Ok tt) ->
  exists o t o' v sch,
    train (model s) (optimizer s) (train_loader s) (m_reset (train_metrics s))
    = (o, Ok t)
    /\ self_evaluate (to_model o) (val_loader s) (m_reset (val_metrics s))
       = (o', Ok v)
    /\ scheduler s = Some sch
    /\ s' = epoch_end s o t o' v.
Proof.
  intros H. generalize (epoch_cases s). cbv zeta.
  destruct (train _ _ _ _) as [o [t | e]] eqn:Etrain; cbn [fst snd].
  2: { intros [K _]. rewrite H in K. discriminate K. }
  destruct (self_evaluate _ _ _) as [o' [v | e]] eqn:Eeval; cbn [fst snd].
  2: { intros [K _]. rewrite H in K. discriminate K. }
  destruct (scheduler s) as [sch |].
  2: { intros K. rewrite H in K. discriminate K. }
  intros K. rewrite H in K. injection K as ->.
  exists o, t, o', v, sch. now repeat split.
Qed.

(** ** Several epochs *)

Lemma repeat_completes (n : nat) :
  forall s s',
    repeat_m (epoch self_evaluate) n s = (s', Ok tt) ->
    completes self_evaluate s (epoch_states self_evaluate n s) s'
    /\ length (epoch_states self_evaluate n s) = n.
Proof.
  induction n as [| n IH]; intros s s' H.
  - cbn in H. injection H as <-. split; [constructor | reflexivity].
  - cbn [repeat_m] in H. apply bind_ok_inv in H.
    destruct H as (s1 & [] & Hstep & Hrest).
    cbn [epoch_states]. rewrite Hstep.
    destruct (IH _ _ Hrest) as [Hc Hl].
    split; [econstructor; eassumption | cbn; now rewrite Hl].
Qed.

Lemma completes_repeat (s s' : Solver) (l : list Solver) :
  completes self_evaluate s l s' ->
  repeat_m (epoch self_evaluate) (length l) s = (s', Ok tt)
  /\ epoch_states self_evaluate (length l) s = l.
Proof.
  induction 1 as [s | s s1 s' l Hstep Hc [IHr IHs]].
  - split; reflexivity.
  - cbn [length repeat_m epoch_states].
    rewrite (bind_run _ _ _ _ _ Hstep), Hstep, IHs. now split.
Qed.

(** The first epoch that raises ends the loop with its exception. *)
Lemma repeat_first_raise (n : nat) (s s1 : Solver) (e : exn) :
  epoch self_evaluate s = (s1, Raise e) ->
  repeat_m (epoch self_evaluate) (S n) s = (s1, Raise e).
Proof. intros H. cbn [repeat_m]. now apply bind_raise. Qed.

End Epoch.

(** ** The histories *)

Section Histories.

Context {C : Collaborators}.

Lemma train_trace_length (bs : list Batch) :
  forall model0 optimizer0,
    length (train_trace model0 optimizer0 bs) = length bs.
Proof.
  induction bs as [| [X Y] bs IH]; intros model0 optimizer0; [reflexivity |].
  cbn [train_trace]. destruct (opt_step _ _) as [optimizer1 params2].
  cbn [length]. now rewrite IH.
Qed.

(** The per-batch list a training pass returns has one entry per batch. *)
Lemma train_ok_length model0 optimizer0 dataloader metrics t :
  snd (train model0 optimizer0 dataloader metrics) = Ok t ->
  length (fst t) = length (fst (dl_iter dataloader)).
Proof.
  rewrite train_result. destruct (weighted_mean _); [| discriminate].
  cbn [result_map]. intros [= <-]. cbn [fst].
  now rewrite running_from_length, length_map, train_trace_length.
Qed.

Variable self_evaluate : evaluate_attr.

Lemma completes_histories (s s' : Solver) (l : list Solver) :
  completes self_evaluate s l s' ->
  length (train_loss_history s') = (length (train_loss_history s) + length l)%nat
  /\ length (val_loss_history s') = (length (val_loss_history s) + length l)%nat
  /\ epochs s' = epochs s.
Proof.
  induction 1 as [s | s s1 s' l Hstep Hc (IHt & IHv & IHe)].
  - cbn. now rewrite !Nat.add_0_r.
  - apply epoch_ok_inv in Hstep.
    destruct Hstep as (o & t & o' & v & sch & _ & _ & _ & ->).
    cbn [epoch_end train_loss_history val_loss_history epochs] in IHt, IHv, IHe.
    rewrite length_app in IHt, IHv. cbn [length] in *. lia.
Qed.

Lemma completes_batch_log (s s' : Solver) (l : list Solver) :
  completes self_evaluate s l s' ->
  length (train_loss_batch s') =
  (length (train_loss_batch s)
   + list_sum (train_batch_counts self_evaluate (length l) s))%nat
  /\ length (train_batch_counts self_evaluate (length l) s) = length l
  /\ firstn (length (train_loss_batch s)) (train_loss_batch s')
     = train_loss_batch s.
Proof.
  induction 1 as [s | s s1 s' l Hstep Hc (IHn & IHc & IHp)].
  - cbn. rewrite Nat.add_0_r, firstn_all. now repeat split.
  - cbn [length train_batch_counts]. rewrite Hstep.
    apply epoch_ok_inv in Hstep.
    destruct Hstep as (o & t & o' & v & sch & Htrain & _ & _ & ->).
    pose proof (train_ok_length (model s) (optimizer s) (train_loader s)
                  (m_reset (train_metrics s)) t) as Hlen.
    rewrite Htrain in Hlen. specialize (Hlen eq_refl).
    cbn [epoch_end train_loss_batch] in IHn, IHp.
    rewrite length_app in IHn, IHp.
    cbn [length].
    repeat split;
      [unfold list_sum in *; cbn [fold_right]; lia | now rewrite IHc |].
    apply (f_equal (firstn (length (train_loss_batch s)))) in IHp.
    rewrite firstn_firstn in IHp.
    rewrite Nat.min_l in IHp by lia.
    rewrite IHp, firstn_app, firstn_all, Nat.sub_diag. cbn [firstn].
    now rewrite app_nil_r.
Qed.

(** C2: when [fit] completes its epochs without error, the training loss
    history and the validation loss history have each grown by exactly one
    value per epoch; on a driver as [__init__] leaves it (both histories
    empty) each then has as many values as there were epochs. *)
Theorem fit_history_lengths (s s' : Solver) :
  fit_with self_evaluate s = (s', Ok tt) ->
  length (train_loss_history s') =
    (length (train_loss_history s) + Z.to_nat (epochs s))%nat
  /\ length (val_loss_history s') =
    (length (val_loss_history s) + Z.to_nat (epochs s))%nat
  /\ (train_loss_history s = [] -> val_loss_history s = [] ->
      length (train_loss_history s') = Z.to_nat (epochs s)
      /\ length (val_loss_history s') = Z.to_nat (epochs s)).
Proof.
  unfold fit_with. intros H.
  destruct (repeat_completes self_evaluate _ _ _ H) as [Hc Hn].
  destruct (completes_histories _ _ _ Hc) as (Ht & Hv & _).
  rewrite Hn in Ht, Hv.
  split; [exact Ht |]. split; [exact Hv |].
  intros Et Ev. rewrite Ht, Hv, Et, Ev. now split.
Qed.

(** C10: [train_loss_batch] is never cleared: when [fit] completes its
    epochs without error the list still starts with what it held before,
    and it has grown by the number of batches of every epoch's training
    pass, summed over the epochs. *)
Theorem fit_batch_log_accumulates (s s' : Solver) :
  fit_with self_evaluate s = (s', Ok tt) ->
  length (train_loss_batch s') =
    (length (train_loss_batch s)
     + list_sum (train_batch_counts self_evaluate (Z.to_nat (epochs s)) s))%nat
  /\ length (train_batch_counts self_evaluate (Z.to_nat (epochs s)) s)
     = Z.to_nat (epochs s)
  /\ firstn (length (train_loss_batch s)) (train_loss_batch s')
     = train_loss_batch s.
Proof.
  unfold fit_with. intros H.
  destruct (repeat_completes self_evaluate _ _ _ H) as [Hc Hn].
  pose proof (completes_batch_log _ _ _ Hc) as K.
  now rewrite Hn in K.
Qed.

End Histories.

(** ** Errors *)

Section Errors.

Context {C : Collaborators}.

Lemma fit_with_first_raise (ev : evaluate_attr) (s s1 : Solver) (e : exn) :
  1 <= epochs s ->
  epoch ev s = (s1, Raise e) ->
  fit_with ev s = (s1, Raise e).
Proof.
  intros Hn Hstep. unfold fit_with.
  destruct (Z.to_nat (epochs s)) as [| n] eqn:E; [lia |].
  now apply repeat_first_raise.
Qed.

Lemma fit_with_raise_of_snd (ev : evaluate_attr) (s : Solver) (e : exn) :
  1 <= epochs s ->
  snd (epoch ev s) = Raise e ->
  fit_with ev s = (fst (epoch ev s), Raise e).
Proof.
  intros Hn Hstep. apply fit_with_first_raise; [assumption |].
  destruct (epoch ev s) as [s1 r]. cbn in *. now subst.
Qed.

Lemma Solver_evaluate_raises model0 dataloader metrics :
  snd (Solver_evaluate model0 dataloader metrics) = Raise TypeError.
Proof. reflexivity. Qed.

(** C1: class [Solver]'s [evaluate] is a static method whose six
    parameters without default include [self], and line 54 gives it five
    positional arguments, so the call raises [TypeError].  No epoch of
    [fit] completes.  With an epoch count of at least 1, when the first
    training pass returns, [fit] raises [TypeError] in the first epoch,
    the training history holding that epoch's mean and the validation
    history still what it was; when the first training pass raises, [fit]
    raises that exception instead.  [fit] returns only when there is no
    epoch to run. *)
Theorem fit_raises_in_first_epoch (s : Solver) :
  let first_pass := train (model s) (optimizer s) (train_loader s)
                          (m_reset (train_metrics s)) in
  (positional evaluate_kind 5 = 5%nat
   /\ (sig_params evaluate_signature - sig_defaults evaluate_signature = 6)%nat
   /\ check_call evaluate_signature evaluate_kind 5 = Raise TypeError)
  /\ (forall s', epoch Solver_evaluate s <> (s', Ok tt))
  /\ (1 <= epochs s ->
      forall t, snd first_pass = Ok t ->
        snd (fit s) = Raise TypeError
        /\ train_loss_history (fst (fit s)) = train_loss_history s ++ [snd t]
        /\ val_loss_history (fst (fit s)) = val_loss_history s)
  /\ (1 <= epochs s ->
      forall e, snd first_pass = Raise e -> snd (fit s) = Raise e)
  /\ (forall s', fit s = (s', Ok tt) -> epochs s <= 0 /\ s' = s).
Proof.
  cbv zeta. pose proof (epoch_cases Solver_evaluate s) as K. cbv zeta in K.
  split; [now repeat split |].
  split.
  { intros s' H. rewrite H in K.
    destruct (snd (train _ _ _ _)) as [t | e].
    - rewrite Solver_evaluate_raises in K. destruct K as [K _]. discriminate K.
    - destruct K as [K _]. discriminate K. }
  split.
  { intros Hn t Ht. rewrite Ht in K. rewrite Solver_evaluate_raises in K.
    destruct K as (Kr & Kt & Kv). unfold fit.
    rewrite (fit_with_raise_of_snd _ _ _ Hn Kr). now repeat split. }
  split.
  { intros Hn e He. rewrite He in K. destruct K as (Kr & _). unfold fit.
    now rewrite (fit_with_raise_of_snd _ _ _ Hn Kr). }
  intros s' H. unfold fit, fit_with in H.
  destruct (Z.to_nat (epochs s)) as [| n] eqn:E.
  - cbn in H. injection H as <-. split; [lia | reflexivity].
  - exfalso. cbn [repeat_m] in H. apply bind_ok_inv in H.
    destruct H as (s1 & [] & Hstep & _). rewrite Hstep in K.
    destruct (snd (train _ _ _ _)) as [t | e].
    + rewrite Solver_evaluate_raises in K. destruct K as [K _]. discriminate K.
    + destruct K as [K _]. discriminate K.
Qed.

(** C8: a pass over a loader that yields no batch divides 0 by 0 and
    raises [ZeroDivisionError], nothing being returned in its place; [fit]
    does not catch it: it ends with the same exception, in the first
    epoch for the training pass, and after a training pass that returned
    for an evaluation reached with all its arguments bound. *)
Theorem empty_loader_raises (model0 : Net) (optimizer0 : Optim)
        (dataloader : Loader) (metrics : Metrics) :
  fst (dl_iter dataloader) = [] ->
  snd (train model0 optimizer0 dataloader metrics) = Raise ZeroDivisionError
  /\ snd (evaluate model0 dataloader metrics) = Raise ZeroDivisionError
  /\ (forall (ev : evaluate_attr) (s : Solver),
        1 <= epochs s -> train_loader s = dataloader ->
        snd (fit_with ev s) = Raise ZeroDivisionError)
  /\ (forall (s : Solver) t,
        1 <= epochs s -> val_loader s = dataloader ->
        snd (train (model s) (optimizer s) (train_loader s)
                   (m_reset (train_metrics s))) = Ok t ->
        snd (fit_with evaluate s) = Raise ZeroDivisionError).
Proof.
  intros Hnil.
  assert (Htrain : forall m o mt,
             snd (train m o dataloader mt) = Raise ZeroDivisionError).
  { intros m o mt. rewrite train_result, Hnil. reflexivity. }
  assert (Heval : forall m mt,
             snd (evaluate m dataloader mt) = Raise ZeroDivisionError).
  { intros m mt. destruct (evaluate_result m dataloader mt) as (-> & _).
    rewrite Hnil. reflexivity. }
  split; [apply Htrain |]. split; [apply Heval |]. split.
  - intros ev s Hn Hl. pose proof (epoch_cases ev s) as K. cbv zeta in K.
    rewrite Hl, Htrain in K. destruct K as (Kr & _).
    now rewrite (fit_with_raise_of_snd _ _ _ Hn Kr).
  - intros s t Hn Hl Ht. pose proof (epoch_cases evaluate s) as K.
    cbv zeta in K. rewrite Ht, Hl, Heval in K. destruct K as (Kr & _).
    now rewrite (fit_with_raise_of_snd _ _ _ Hn Kr).
Qed.

End Errors.

(** ** The scheduler guard *)

Section Scheduler.

Context {C : Collaborators}.

Lemma guard_without_scheduler (s : Solver) :
  scheduler s = None -> scheduler_guard s = (s, Raise AttributeError).
Proof.
  intros H. unfold scheduler_guard, bind, gets, lift. now rewrite H.
Qed.

Lemma guard_with_scheduler (s : Solver) (sch : Sched) :
  scheduler s = Some sch -> scheduler_guard s = (s, Ok tt).
Proof.
  intros H. unfold scheduler_guard, bind, gets, ret. now rewrite H.
Qed.

(** Whatever happens in an epoch, the scheduler attribute ends as it
    began. *)
Lemma epoch_keeps_scheduler (ev : evaluate_attr) (s : Solver) :
  scheduler (fst (epoch ev s)) = scheduler s.
Proof.
  unfold epoch, bind, modify, call_train, call_evaluate, gets.
  destruct s as [ep mdl tl vl opt sch tm vm tlh vlh tlb bm bd].
  cbn -[train last_item fltb].
  destruct (train _ _ _ _) as [o [t | e]]; cbn -[last_item fltb];
    [| reflexivity].
  destruct (ev _ _ _) as [o' [v | e]]; cbn -[last_item fltb]; [| reflexivity].
  unfold scheduler_guard, keep_best, report, bind, gets, lift, modify, ret.
  destruct sch as [sch |]; cbn -[last_item fltb]; [| reflexivity].
  destruct (fltb bd _); cbn -[last_item fltb];
    destruct (last_item _); reflexivity.
Qed.

Lemma repeat_keeps_scheduler (ev : evaluate_attr) (n : nat) :
  forall s, scheduler (fst (repeat_m (epoch ev) n s)) = scheduler s.
Proof.
  induction n as [| n IH]; intros s; [reflexivity |].
  cbn [repeat_m]. unfold bind.
  pose proof (epoch_keeps_scheduler ev s) as K.
  destruct (epoch ev s) as [s1 [[] | e]]; cbn [fst] in K.
  - now rewrite IH.
  - exact K.
Qed.

(** C6: the guard of lines 59-60 enters its branch, where the scheduler
    would be stepped with the last validation loss, exactly when no
    scheduler is configured; with a scheduler object configured the guard
    does nothing, and in every epoch, and so over a whole [fit], the
    scheduler is left as it was. *)
Theorem scheduler_stepped_only_when_absent (s : Solver) :
  (negb (truthy (scheduler s)) = true <-> scheduler s = None)
  /\ (forall sch, scheduler s = Some sch -> scheduler_guard s = (s, Ok tt))
  /\ (forall s' r, scheduler_guard s = (s', r) -> scheduler s' = scheduler s)
  /\ (forall ev : evaluate_attr, scheduler (fst (epoch ev s)) = scheduler s)
  /\ (forall ev : evaluate_attr, scheduler (fst (fit_with ev s)) = scheduler s).
Proof.
  split.
  { destruct (scheduler s); cbn; split; congruence. }
  split; [apply guard_with_scheduler |].
  split;
    [| split; [intros ev; apply epoch_keeps_scheduler
              | intros ev; apply repeat_keeps_scheduler]].
  intros s' r H. destruct (scheduler s) as [sch |] eqn:E.
  - rewrite (guard_with_scheduler s sch E) in H. injection H as <- _. exact E.
  - rewrite (guard_without_scheduler s E) in H. injection H as <- _. exact E.
Qed.

(** C9: without a scheduler ([None]) the branch of the guard is taken and
    the lookup of [step] on [None] raises [AttributeError], which ends an
    epoch whose passes had returned; the guard passes without error only
    with a scheduler object (truthy), and then it is skipped, so an epoch
    that completes had one. *)
Theorem guard_needs_scheduler (s : Solver) :
  (scheduler s = None ->
   scheduler_guard s = (s, Raise AttributeError)
   /\ forall (ev : evaluate_attr) t v,
       snd (train (model s) (optimizer s) (train_loader s)
                  (m_reset (train_metrics s))) = Ok t ->
       snd (ev (to_model (fst (train (model s) (optimizer s) (train_loader s)
                                     (m_reset (train_metrics s)))))
               (val_loader s) (m_reset (val_metrics s))) = Ok v ->
       snd (epoch ev s) = Raise AttributeError)
  /\ (forall s', scheduler_guard s = (s', Ok tt) ->
       exists sch, scheduler s = Some sch
                   /\ truthy (scheduler s) = true /\ s' = s)
  /\ (forall (ev : evaluate_attr) s', epoch ev s = (s', Ok tt) ->
       exists sch, scheduler s = Some sch).
Proof.
  split.
  { intros E. split; [now apply guard_without_scheduler |].
    intros ev t v Ht Hv. pose proof (epoch_cases ev s) as K. cbv zeta in K.
    now rewrite Ht, Hv, E in K. }
  split.
  { intros s' H. destruct (scheduler s) as [sch |] eqn:E.
    - rewrite (guard_with_scheduler s sch E) in H. injection H as <-.
      exists sch. now repeat split.
    - rewrite (guard_without_scheduler s E) in H. discriminate H. }
  intros ev s' H. apply epoch_ok_inv in H.
  destruct H as (o & t & o' & v & sch & _ & _ & E & _). now exists sch.
Qed.

End Scheduler.

(** ** What the passes return *)

Section PassResults.

Context {C : Collaborators}.

Lemma weighted_mean_single (l : float) (b : N) :
  b <> 0%N ->
  weighted_mean [(l, b)] =
  Ok (fdiv (fadd f0 (fmul l (float_of_int (Z.of_N b))))
           (float_of_int (Z.of_N b))).
Proof.
  intros Hb. unfold weighted_mean, truediv.
  cbn [map sum_from fold_left weight size_of fst snd add mul to_float
       is_zero_num Z.add].
  destruct (Z.eqb_spec (Z.of_N b) 0) as [E | _]; [lia |].
  reflexivity.
Qed.

(** C4: the loss a pass returns is the batch-size-weighted mean of the
    losses of its batches, computed in Python's arithmetic in the order of
    the batches: the sum of loss times size, divided by the sum of the
    sizes (and [ZeroDivisionError] when that sum is 0).  For sizes 2 and 3
    with losses 1.0 and 2.0 it is 1.6.  For one batch of loss [l] and size
    [b] it is the float [(0 + l * b) / b], the loss after the rounding of
    a product and of a quotient; for size 1 that is the loss itself. *)
Theorem pass_loss_is_weighted_mean (model0 : Net) (optimizer0 : Optim)
        (dataloader : Loader) (metrics : Metrics) :
  result_map snd (snd (train model0 optimizer0 dataloader metrics)) =
    weighted_mean (train_trace (net_train model0) optimizer0
                               (fst (dl_iter dataloader)))
  /\ snd (evaluate model0 dataloader metrics) =
    weighted_mean (eval_trace (net_eval model0) (fst (dl_iter dataloader)))
  /\ weighted_mean [(lit 1 1, 2%N); (lit 2 1, 3%N)] = Ok (lit 16 10)
  /\ (forall (l : float) (b : N), b <> 0%N ->
        weighted_mean [(l, b)] =
        Ok (fdiv (fadd f0 (fmul l (float_of_int (Z.of_N b))))
                 (float_of_int (Z.of_N b))))
  /\ (forall l : float,
        valid_binary prec emax l = true -> l <> S754_zero true ->
        weighted_mean [(l, 1%N)] = Ok l).
Proof.
  split.
  { rewrite train_result. destruct (weighted_mean _); reflexivity. }
  split; [apply evaluate_result |].
  split; [vm_compute; reflexivity |].
  split; [apply weighted_mean_single |].
  intros l Hv Hl. rewrite weighted_mean_single by discriminate.
  f_equal. now apply times_one_over_one.
Qed.

(** C5: a training pass that returns gives a per-batch list with one value
    per batch of the loader, the value at index [i] being the sum of the
    first [i + 1] batch losses divided by [i + 1]; and the pass returns
    whenever the sizes of its batches do not add up to 0. *)
Theorem train_running_means (model0 : Net) (optimizer0 : Optim)
        (dataloader : Loader) (metrics : Metrics) :
  let batches := fst (dl_iter dataloader) in
  let trace := train_trace (net_train model0) optimizer0 batches in
  (is_zero_num (sum_from (PyInt 0) (map size_of trace)) = false ->
   exists t, snd (train model0 optimizer0 dataloader metrics) = Ok t)
  /\ (forall t, snd (train model0 optimizer0 dataloader metrics) = Ok t ->
       length (fst t) = length batches
       /\ forall i, (i < length batches)%nat ->
            exists x, nth_error (fst t) i = Some x
                      /\ running_mean (map fst trace) (S i) = Ok x).
Proof.
  cbv zeta. split.
  - intros Hz. rewrite train_result. unfold weighted_mean, truediv.
    rewrite Hz. cbn [result_map]. eexists. reflexivity.
  - intros t Ht. split; [now apply train_ok_length in Ht |].
    intros i Hi. rewrite train_result in Ht.
    destruct (weighted_mean _); [| discriminate].
    cbn [result_map] in Ht. injection Ht as <-. cbn [fst].
    rewrite running_from_nth
      by now rewrite length_map, train_trace_length.
    eexists. split; [reflexivity |].
    unfold running_mean, truediv. cbn [is_zero_num].
    destruct (Z.eqb_spec (Z.of_nat (S i)) 0) as [E | _]; [lia |].
    do 3 f_equal. lia.
Qed.

(** C7: an evaluation pass leaves the parameters of the network as they
    were, having only put it in evaluation mode (none of [zero_grad],
    [backward], [opt_step] is applied); run again on the network it left
    and on the same batches it returns the same loss and leaves the same
    network. *)
Theorem evaluate_keeps_parameters (model0 : Net)
        (dataloader dataloader2 : Loader) (metrics metrics2 : Metrics) :
  fst (dl_iter dataloader2) = fst (dl_iter dataloader) ->
  let first := evaluate model0 dataloader metrics in
  let second := evaluate (eo_model (fst first)) dataloader2 metrics2 in
  params (eo_model (fst first)) = params model0
  /\ training (eo_model (fst first)) = false
  /\ snd second = snd first
  /\ eo_model (fst second) = eo_model (fst first).
Proof.
  intros Hsame. cbv zeta.
  destruct (evaluate_result model0 dataloader metrics) as (Hr & Hm & _).
  destruct (evaluate_result (eo_model (fst (evaluate model0 dataloader metrics)))
              dataloader2 metrics2) as (Hr2 & Hm2 & _).
  rewrite Hr2, Hm2, Hr, Hm, Hsame. now repeat split.
Qed.

End PassResults.

(** ** The best score *)

Section BestScore.

Context {C : Collaborators}.

Variable self_evaluate : evaluate_attr.

Local Abbreviation best := best_dice_score.

(** The update of lines 62-64, read off the two ends of an epoch. *)
Lemma epoch_best (s s1 : Solver) :
  epoch self_evaluate s = (s1, Ok tt) ->
  best s1 = (if fltb (best s) (observed_dice s1) then observed_dice s1
             else best s)
  /\ best_model s1 = (if fltb (best s) (observed_dice s1) then model s1
                      else best_model s).
Proof.
  intros H. apply epoch_ok_inv in H.
  destruct H as (o & t & o' & v & sch & _ & _ & _ & ->).
  unfold observed_dice. cbn [epoch_end val_metrics best_dice_score
                             best_model model].
  now split.
Qed.

Lemma epoch_best_order (s s1 : Solver) :
  epoch self_evaluate s = (s1, Ok tt) ->
  is_nan (best s) = false ->
  is_nan (best s1) = false
  /\ fleb (best s) (best s1) = true
  /\ (is_nan (observed_dice s1) = false ->
      fleb (observed_dice s1) (best s1) = true)
  /\ (best s1 = best s \/ best s1 = observed_dice s1).
Proof.
  intros H Hnan. destruct (epoch_best _ _ H) as [-> _].
  destruct (fltb (best s) (observed_dice s1)) eqn:E.
  - destruct (fltb_not_nan _ _ E) as [_ Hd].
    repeat split; [exact Hd | now apply fltb_fleb | | now right].
    intros _. now apply fleb_refl.
  - repeat split; [exact Hnan | now apply fleb_refl | | now left].
    intros Hd. now apply fleb_total.
Qed.

Lemma completes_best (s s' : Solver) (l : list Solver) :
  completes self_evaluate s l s' ->
  is_nan (best s) = false ->
  is_nan (best s') = false
  /\ fleb (best s) (best s') = true
  /\ (forall x, In x l -> is_nan (observed_dice x) = false ->
        fleb (observed_dice x) (best s') = true)
  /\ (best s' = best s \/ In (best s') (map observed_dice l)).
Proof.
  induction 1 as [s | s s1 s' l Hstep Hc IH]; intros Hnan.
  - repeat split; [exact Hnan | now apply fleb_refl | | now left].
    intros x [].
  - destruct (epoch_best_order _ _ Hstep Hnan) as (Hn1 & Hle1 & Hub1 & Hin1).
    destruct (IH Hn1) as (Hn' & Hle' & Hub' & Hin').
    repeat split.
    + exact Hn'.
    + eapply fleb_trans; eassumption.
    + intros x [<- | Hx] Hd.
      * eapply fleb_trans; [now apply Hub1 | exact Hle'].
      * now apply Hub'.
    + cbn [map In]. destruct Hin' as [E | Hin'].
      * destruct Hin1 as [E1 | E1].
        -- left. congruence.
        -- right. left. congruence.
      * right. now right.
Qed.

Lemma completes_steps (s s' : Solver) (l : list Solver) :
  completes self_evaluate s l s' ->
  is_nan (best s) = false ->
  forall k a b,
    nth_error (s :: l) k = Some a -> nth_error l k = Some b ->
    epoch self_evaluate a = (b, Ok tt) /\ is_nan (best a) = false.
Proof.
  induction 1 as [s | s s1 s' l Hstep Hc IH]; intros Hnan k a b Ha Hb.
  - destruct k; discriminate Hb.
  - destruct k as [| k].
    + cbn in Ha, Hb. injection Ha as <-. injection Hb as <-. now split.
    + cbn [nth_error] in Ha, Hb.
      destruct (epoch_best_order _ _ Hstep Hnan) as (Hn1 & _).
      exact (IH Hn1 k a b Ha Hb).
Qed.

Lemma last_default {A : Type} (l : list A) :
  forall x d, last (x :: l) d = last l x.
Proof.
  induction l as [| y l IH]; intros x d; [reflexivity |].
  change (last (x :: y :: l) d) with (last (y :: l) d).
  now rewrite !IH.
Qed.

Lemma completes_last (s s' : Solver) (l : list Solver) :
  completes self_evaluate s l s' -> last l s = s'.
Proof.
  induction 1 as [s | s s1 s' l Hstep Hc IH]; [reflexivity |].
  now rewrite last_default.
Qed.

(** C3: from a best score of 0.0, over the epochs of a [fit] that
    completes: from each epoch to the next the best score does not
    decrease, and it and the snapshot are replaced by the epoch's
    validation Dice score and the current network exactly when that score
    is greater than the best so far; at the end the best score is at least
    every observed score (NaN set aside), it is 0.0 or one of the observed
    scores, and when every observed score is at least 0.0 and an epoch was
    run it equals one of them: it is the maximum observed. *)
Theorem best_dice_is_maximum (s s' : Solver) :
  fit_with self_evaluate s = (s', Ok tt) ->
  best s = f0 ->
  let l := epoch_states self_evaluate (Z.to_nat (epochs s)) s in
  length l = Z.to_nat (epochs s)
  /\ last l s = s'
  /\ (forall k a b,
        nth_error (s :: l) k = Some a -> nth_error l k = Some b ->
        fleb (best a) (best b) = true
        /\ best b = (if fltb (best a) (observed_dice b) then observed_dice b
                     else best a)
        /\ best_model b = (if fltb (best a) (observed_dice b) then model b
                           else best_model a))
  /\ (forall x, In x l -> is_nan (observed_dice x) = false ->
        fleb (observed_dice x) (best s') = true)
  /\ (best s' = f0 \/ In (best s') (map observed_dice l))
  /\ (l <> [] ->
      (forall x, In x l -> fleb f0 (observed_dice x) = true) ->
      exists x, In x l /\ feqb (best s') (observed_dice x) = true).
Proof.
  unfold fit_with. intros H H0. cbv zeta.
  destruct (repeat_completes self_evaluate _ _ _ H) as [Hc Hn].
  assert (Hnan : is_nan (best s) = false) by now rewrite H0.
  destruct (completes_best _ _ _ Hc Hnan) as (Hn' & Hle & Hub & Hin).
  rewrite H0 in Hin.
  split; [exact Hn |]. split; [now apply completes_last |].
  split.
  { intros k a b Ha Hb.
    destruct (completes_steps _ _ _ Hc Hnan k a b Ha Hb) as [Hstep Hna].
    destruct (epoch_best_order _ _ Hstep Hna) as (_ & Hab & _).
    destruct (epoch_best _ _ Hstep) as [Hb1 Hb2]. now repeat split. }
  split; [exact Hub |]. split; [exact Hin |].
  intros Hne Hpos. destruct Hin as [E | Hin].
  - destruct (epoch_states _ _ _) as [| x l'] eqn:El; [now elim Hne |].
    exists x. split; [now left |].
    assert (Hx : In x (x :: l')) by now left.
    specialize (Hpos x Hx).
    destruct (fleb_not_nan _ _ Hpos) as [_ Hd].
    specialize (Hub x Hx Hd). rewrite E in *.
    now apply fleb_antisym.
  - apply in_map_iff in Hin. destruct Hin as (x & Ex & Hx).
    exists x. split; [exact Hx |]. rewrite <- Ex.
    specialize (Hpos x Hx). destruct (fleb_not_nan _ _ Hpos) as [_ Hd].
    apply fleb_antisym; now apply fleb_refl.
Qed.

End BestScore.

(** ** The driver at work on the small collaborators *)

Section Runs.

Existing Instance Toy.collaborators.

Lemma fit_history_lengths_witness :
  fit_with evaluate (Toy.solver (Some 7)) = (Toy.finished, Ok tt)
  /\ length (train_loss_history Toy.finished) = 2%nat
  /\ length (val_loss_history Toy.finished) = 2%nat.
Proof.
  assert (H : fit_with evaluate (Toy.solver (Some 7)) = (Toy.finished, Ok tt))
    by reflexivity.
  split; [exact H |].
  destruct (fit_history_lengths evaluate _ _ H) as (Ht & Hv & _).
  split; [exact Ht | exact Hv].
Defined.

Lemma fit_batch_log_accumulates_witness :
  fit_with evaluate (Toy.solver (Some 7)) = (Toy.finished, Ok tt)
  /\ train_batch_counts evaluate 2 (Toy.solver (Some 7)) = [2%nat; 1%nat]
  /\ length (train_loss_batch Toy.finished) = 3%nat.
Proof.
  assert (H : fit_with evaluate (Toy.solver (Some 7)) = (Toy.finished, Ok tt))
    by reflexivity.
  split; [exact H |].
  split; [vm_compute; reflexivity |].
  destruct (fit_batch_log_accumulates evaluate _ _ H) as (Hn & _).
  exact Hn.
Defined.

Lemma best_dice_is_maximum_witness :
  fit_with evaluate (Toy.solver (Some 7)) = (Toy.finished, Ok tt)
  /\ best_dice_score (Toy.solver (Some 7)) = f0
  /\ (best_dice_score Toy.finished = f0
      \/ In (best_dice_score Toy.finished)
            (map observed_dice
               (epoch_states evaluate 2 (Toy.solver (Some 7))))).
Proof.
  assert (H : fit_with evaluate (Toy.solver (Some 7)) = (Toy.finished, Ok tt))
    by reflexivity.
  split; [exact H |]. split; [reflexivity |].
  destruct (best_dice_is_maximum evaluate _ _ H eq_refl)
    as (_ & _ & _ & _ & Hin & _).
  exact Hin.
Defined.

Lemma fit_raises_in_first_epoch_witness :
  1 <= epochs (Toy.solver None)
  /\ snd (fit (Toy.solver None)) = Raise TypeError
  /\ val_loss_history (fst (fit (Toy.solver None))) = [].
Proof.
  assert (Hn : 1 <= epochs (Toy.solver None)) by (cbn; lia).
  split; [exact Hn |].
  destruct (fit_raises_in_first_epoch (Toy.solver None)) as (_ & _ & H & _).
  destruct (H Hn _ eq_refl) as (Hr & _ & Hv).
  split; [exact Hr | exact Hv].
Defined.

(** With no training batch the first epoch ends in the division of the
    training pass, before [evaluate] is called. *)
Lemma fit_on_empty_training_loader :
  1 <= epochs Toy.no_training_data
  /\ snd (fit Toy.no_training_data) = Raise ZeroDivisionError
  /\ snd (fit Toy.no_training_data) <> Raise TypeError.
Proof.
  split; [cbn; lia |].
  split; [vm_compute; reflexivity | vm_compute; discriminate].
Qed.

Lemma empty_loader_raises_witness :
  fst (dl_iter ([[]] : Loader)) = []
  /\ snd (train Toy.net 0 [[]] []) = Raise ZeroDivisionError
  /\ snd (evaluate Toy.net [[]] []) = Raise ZeroDivisionError.
Proof.
  split; [reflexivity |].
  destruct (empty_loader_raises Toy.net 0 [[]] [] eq_refl) as (Ht & He & _).
  split; [exact Ht | exact He].
Defined.

Lemma scheduler_stepped_only_when_absent_witness :
  scheduler (Toy.solver (Some 7)) = Some 7
  /\ scheduler_guard (Toy.solver (Some 7)) = (Toy.solver (Some 7), Ok tt).
Proof.
  split; [reflexivity |].
  destruct (scheduler_stepped_only_when_absent (Toy.solver (Some 7)))
    as (_ & H & _).
  exact (H 7 eq_refl).
Defined.

Lemma guard_needs_scheduler_witness :
  scheduler (Toy.solver None) = None
  /\ scheduler_guard (Toy.solver None) = (Toy.solver None, Raise AttributeError)
  /\ snd (epoch evaluate (Toy.solver None)) = Raise AttributeError.
Proof.
  split; [reflexivity |].
  destruct (guard_needs_scheduler (Toy.solver None)) as (H & _).
  destruct (H eq_refl) as (Hg & He).
  split; [exact Hg |].
  exact (He evaluate _ _ eq_refl eq_refl).
Defined.

Lemma evaluate_keeps_parameters_witness :
  let first := evaluate Toy.net [Toy.one_batch] [] in
  fst (dl_iter (eo_dataloader (fst first))) = fst (dl_iter ([Toy.one_batch] : Loader))
  /\ params (eo_model (fst first)) = 1
  /\ snd (evaluate (eo_model (fst first)) (eo_dataloader (fst first))
                   (eo_metrics (fst first)))
     = snd first.
Proof.
  cbv zeta.
  assert (Hsame :
            fst (dl_iter (eo_dataloader (fst (evaluate Toy.net [Toy.one_batch] []))))
            = fst (dl_iter ([Toy.one_batch] : Loader))) by reflexivity.
  split; [exact Hsame |].
  destruct (evaluate_keeps_parameters Toy.net [Toy.one_batch]
              (eo_dataloader (fst (evaluate Toy.net [Toy.one_batch] [])))
              [] (eo_metrics (fst (evaluate Toy.net [Toy.one_batch] []))) Hsame)
    as (Hp & _ & Hr & _).
  split; [exact Hp | exact Hr].
Defined.

Lemma pass_loss_is_weighted_mean_witness :
  3%N <> 0%N
  /\ weighted_mean [(lit 1 10, 3%N)] =
     Ok (fdiv (fadd f0 (fmul (lit 1 10) (float_of_int 3))) (float_of_int 3))
  /\ snd (evaluate Toy.net [Toy.two_batches] []) = Ok (lit 16 10).
Proof.
  assert (Hb : 3%N <> 0%N) by discriminate.
  split; [exact Hb |].
  destruct (pass_loss_is_weighted_mean Toy.net 0 [Toy.two_batches] [])
    as (_ & He & _ & H1 & _).
  split; [exact (H1 (lit 1 10) 3%N Hb) |].
  rewrite He. vm_compute. reflexivity.
Defined.

(** One batch of size 3 and loss 0.1: the pass returns
    0.10000000000000002. *)
Lemma single_batch_mean_differs :
  fst (dl_iter ([Toy.one_batch] : Loader)) = [Toy.batch 3 (lit 1 10)]
  /\ item (criterion (call_model (net_eval Toy.net) (3%N, lit 1 10)) tt)
     = lit 1 10
  /\ snd (evaluate Toy.net [Toy.one_batch] [])
     = Ok (S754_finite false 7205759403792795 (-56))
  /\ snd (evaluate Toy.net [Toy.one_batch] []) <> Ok (lit 1 10)
  /\ result_map snd (snd (train Toy.net 0 [Toy.one_batch] []))
     <> Ok (lit 1 10).
Proof.
  split; [reflexivity |].
  split; [vm_compute; reflexivity |].
  split; [vm_compute; reflexivity |].
  split; vm_compute; discriminate.
Qed.

Lemma train_running_means_witness :
  is_zero_num
    (sum_from (PyInt 0)
       (map size_of (train_trace (net_train Toy.net) 0 Toy.two_batches)))
  = false
  /\ (exists t, snd (train Toy.net 0 [Toy.two_batches] []) = Ok t
                /\ length (fst t) = 2%nat).
Proof.
  destruct (train_running_means Toy.net 0 [Toy.two_batches] []) as (Hex & Hall).
  assert (Hz : is_zero_num
                 (sum_from (PyInt 0)
                    (map size_of
                       (train_trace (net_train Toy.net) 0 Toy.two_batches)))
               = false) by (vm_compute; reflexivity).
  split; [exact Hz |].
  destruct (Hex Hz) as [t Ht]. exists t. split; [exact Ht |].
  exact (proj1 (Hall t Ht)).
Defined.

End Runs.

(** * Further properties *)

(** ** NaN and the first mean *)

Section FloatFacts.

Lemma fleb_fltb_trans (x y z : float) :
  fleb x y = true -> fltb y z = true -> fltb x z = true.
Proof.
  intros Hxy Hyz.
  destruct (fleb_not_nan _ _ Hxy) as [Hx Hy].
  destruct (fltb_not_nan _ _ Hyz) as [_ Hz].
  apply fleb_key in Hxy; [| assumption | assumption].
  apply fltb_key in Hyz; [| assumption | assumption].
  apply fltb_key; [assumption | assumption |].
  destruct Hxy as [A | A].
  - eapply key_lt_trans; eassumption.
  - now rewrite A.
Qed.

Lemma fadd_nan_l (x : float) : fadd S754_nan x = S754_nan.
Proof. reflexivity. Qed.

Lemma fadd_nan_r (x : float) : fadd x S754_nan = S754_nan.
Proof. destruct x; reflexivity. Qed.

Lemma fmul_nan_l (x : float) : fmul S754_nan x = S754_nan.
Proof. reflexivity. Qed.

Lemma fdiv_nan_l (x : float) : fdiv S754_nan x = S754_nan.
Proof. reflexivity. Qed.

Lemma is_nan_eq (x : float) : is_nan x = true -> x = S754_nan.
Proof. destruct x; cbn; congruence. Qed.

(** Once the running sum is NaN it stays NaN. *)
Lemma sum_from_nan (tr : list (float * N)) :
  sum_from (PyFloat S754_nan) (map weight tr) = PyFloat S754_nan.
Proof.
  induction tr as [| lb tr IH]; [reflexivity |].
  cbn [map sum_from fold_left]. exact IH.
Qed.

Lemma sum_from_meets_nan (tr : list (float * N)) :
  forall a,
    (exists lb, In lb tr /\ is_nan (fst lb) = true) ->
    sum_from a (map weight tr) = PyFloat S754_nan.
Proof.
  induction tr as [| [l b] tr IH]; intros a (lb & Hin & Hnan).
  - elim Hin.
  - cbn [map sum_from fold_left]. destruct Hin as [<- | Hin].
    + cbn [fst] in Hnan. apply is_nan_eq in Hnan. subst l.
      match goal with
      | |- fold_left add _ ?w = _ =>
          assert (E : w = PyFloat S754_nan)
      end.
      { unfold weight. cbn [fst snd mul to_float].
        rewrite fmul_nan_l. destruct a; cbn [add to_float];
          now rewrite fadd_nan_r. }
      rewrite E. apply (sum_from_nan tr).
    + apply IH. now exists lb.
Qed.

Lemma weighted_mean_nan (tr : list (float * N)) (v : float) :
  (exists lb, In lb tr /\ is_nan (fst lb) = true) ->
  weighted_mean tr = Ok v -> v = S754_nan.
Proof.
  intros Hnan. unfold weighted_mean, truediv.
  rewrite (sum_from_meets_nan tr (PyInt 0) Hnan).
  destruct (sum_from (PyInt 0) (map size_of tr)) as [z | y];
    destruct (is_zero_num _); try discriminate;
    intros [= <-]; reflexivity.
Qed.

(** [(0 + x) / 1] is [x], the negative zero aside. *)
Lemma plus_zero_over_one (x : float) :
  valid_binary prec emax x = true ->
  x <> S754_zero true ->
  fdiv (fadd f0 x) (float_of_int 1) = x.
Proof.
  intros Hv Hx. destruct x as [[|] | s | | s m e].
  - now elim Hx.
  - reflexivity.
  - destruct s; reflexivity.
  - reflexivity.
  - cbn [valid_binary] in Hv.
    change (fadd f0 (S754_finite s m e)) with (S754_finite s m e).
    now apply fdiv_one_finite.
Qed.

End FloatFacts.

(** ** When a pass fails, and what a NaN loss does *)

Section PassEdges.

Context {C : Collaborators}.

(** The sizes add up in integers: the sum only grows, and it grows when a
    batch has a sample. *)
Lemma sizes_sum (tr : list (float * N)) :
  forall z, exists z',
    sum_from (PyInt z) (map size_of tr) = PyInt z'
    /\ z <= z'
    /\ ((exists lb, In lb tr /\ snd lb <> 0%N) -> z < z')
    /\ ((forall lb, In lb tr -> snd lb = 0%N) -> z' = z).
Proof.
  induction tr as [| [l b] tr IH]; intros z.
  - exists z. cbn. repeat split; try lia. intros (lb & [] & _).
  - cbn [map sum_from fold_left size_of snd add].
    destruct (IH (z + Z.of_N b)) as (z' & Hsum & Hle & Hlt & Heq).
    exists z'. split; [exact Hsum |]. split; [lia |]. split.
    + intros (lb & [<- | Hin] & Hnz).
      * cbn [snd] in Hnz. lia.
      * assert (z + Z.of_N b < z') by (apply Hlt; now exists lb). lia.
    + intros Hall.
      assert (Hb : b = 0%N) by (apply (Hall (l, b)); now left).
      rewrite Heq; [subst b; lia |].
      intros lb Hin. apply Hall. now right.
Qed.

Lemma train_trace_sizes (bs : list Batch) :
  forall model0 optimizer0,
    map snd (train_trace model0 optimizer0 bs) = map (fun b => size0 (fst b)) bs.
Proof.
  induction bs as [| [X Y] bs IH]; intros model0 optimizer0; [reflexivity |].
  cbn [train_trace]. destruct (opt_step _ _) as [optimizer1 params2].
  cbn [map fst snd]. now rewrite IH.
Qed.

Lemma eval_trace_sizes (model0 : Net) (bs : list Batch) :
  map snd (eval_trace model0 bs) = map (fun b => size0 (fst b)) bs.
Proof. unfold eval_trace. rewrite map_map. reflexivity. Qed.

(** A weighted mean is a number when a batch has a sample, and the division
    by zero otherwise. *)
Lemma weighted_mean_cases (tr : list (float * N)) :
  ((exists lb, In lb tr /\ snd lb <> 0%N) -> exists v, weighted_mean tr = Ok v)
  /\ ((forall lb, In lb tr -> snd lb = 0%N) ->
      weighted_mean tr = Raise ZeroDivisionError)
  /\ (forall e, weighted_mean tr = Raise e -> e = ZeroDivisionError).
Proof.
  unfold weighted_mean, truediv.
  destruct (sizes_sum tr 0) as (z' & -> & Hle & Hlt & Heq).
  cbn [is_zero_num]. repeat split.
  - intros Hex. specialize (Hlt Hex).
    destruct (Z.eqb_spec z' 0) as [E | _]; [lia |]. eexists. reflexivity.
  - intros Hall. rewrite (Heq Hall). reflexivity.
  - intros e. destruct (z' =? 0); congruence.
Qed.

Lemma sized_in_trace (sizes : list N) (tr : list (float * N)) :
  map snd tr = sizes ->
  ((exists n, In n sizes /\ n <> 0%N) <->
   (exists lb, In lb tr /\ snd lb <> 0%N))
  /\ ((forall n, In n sizes -> n = 0%N) <->
      (forall lb, In lb tr -> snd lb = 0%N)).
Proof.
  intros <-. split; split.
  - intros (n & Hin & Hn). apply in_map_iff in Hin.
    destruct Hin as (lb & <- & Hin). now exists lb.
  - intros (lb & Hin & Hn). exists (snd lb). split; [now apply in_map | exact Hn].
  - intros H lb Hin. apply H. now apply in_map.
  - intros H n Hin. apply in_map_iff in Hin.
    destruct Hin as (lb & <- & Hin). now apply H.
Qed.

(** X1: a pass returns exactly when some batch of its loader has a sample
    (a first dimension other than 0); when none has, be the loader empty or
    all its batches empty, the pass raises [ZeroDivisionError]; and no pass
    raises anything else. *)
Theorem pass_fails_iff_no_sample (model0 : Net) (optimizer0 : Optim)
        (dataloader : Loader) (metrics : Metrics) :
  let batches := fst (dl_iter dataloader) in
  ((exists b, In b batches /\ size0 (fst b) <> 0%N) ->
   (exists t, snd (train model0 optimizer0 dataloader metrics) = Ok t)
   /\ (exists v, snd (evaluate model0 dataloader metrics) = Ok v))
  /\ ((forall b, In b batches -> size0 (fst b) = 0%N) ->
      snd (train model0 optimizer0 dataloader metrics) = Raise ZeroDivisionError
      /\ snd (evaluate model0 dataloader metrics) = Raise ZeroDivisionError)
  /\ (forall e,
        snd (train model0 optimizer0 dataloader metrics) = Raise e
        \/ snd (evaluate model0 dataloader metrics) = Raise e ->
        e = ZeroDivisionError).
Proof.
  cbv zeta. rewrite train_result.
  destruct (evaluate_result model0 dataloader metrics) as (-> & _).
  set (batches := fst (dl_iter dataloader)).
  set (ttr := train_trace (net_train model0) optimizer0 batches).
  set (etr := eval_trace (net_eval model0) batches).
  destruct (weighted_mean_cases ttr) as (Tok & Tzero & Tonly).
  destruct (weighted_mean_cases etr) as (Eok & Ezero & Eonly).
  destruct (sized_in_trace (map (fun b : Batch => size0 (fst b)) batches) ttr
              (train_trace_sizes batches _ _)) as [Tsome Tnone].
  destruct (sized_in_trace (map (fun b : Batch => size0 (fst b)) batches) etr
              (eval_trace_sizes _ batches)) as [Esome Enone].
  assert (Hsome : (exists b, In b batches /\ size0 (fst b) <> 0%N) ->
                  exists n, In n (map (fun b : Batch => size0 (fst b)) batches)
                            /\ n <> 0%N).
  { intros (b & Hin & Hb). exists (size0 (fst b)). split; [| exact Hb].
    now apply (in_map (fun b : Batch => size0 (fst b))). }
  assert (Hnone : (forall b, In b batches -> size0 (fst b) = 0%N) ->
                  forall n, In n (map (fun b : Batch => size0 (fst b)) batches) ->
                            n = 0%N).
  { intros Hall n Hin. apply in_map_iff in Hin.
    destruct Hin as (b & <- & Hin). now apply Hall. }
  split; [| split].
  - intros Hex. split.
    + destruct (Tok (proj1 Tsome (Hsome Hex))) as [v ->]. eexists. reflexivity.
    + exact (Eok (proj1 Esome (Hsome Hex))).
  - intros Hall. split.
    + now rewrite (Tzero (proj1 Tnone (Hnone Hall))).
    + exact (Ezero (proj1 Enone (Hnone Hall))).
  - intros e [H | H].
    + destruct (weighted_mean ttr) as [v | e'] eqn:E; [discriminate |].
      cbn in H. injection H as <-. now apply Tonly.
    + now apply Eonly.
Qed.

(** X2: a NaN batch loss is not skipped: when the loss of any batch of a
    pass is NaN, the mean the pass returns is NaN. *)
Theorem nan_loss_gives_nan_mean (model0 : Net) (optimizer0 : Optim)
        (dataloader : Loader) (metrics : Metrics) :
  (forall t,
      snd (train model0 optimizer0 dataloader metrics) = Ok t ->
      (exists lb, In lb (train_trace (net_train model0) optimizer0
                                      (fst (dl_iter dataloader)))
                  /\ is_nan (fst lb) = true) ->
      snd t = S754_nan)
  /\ (forall v,
        snd (evaluate model0 dataloader metrics) = Ok v ->
        (exists b, In b (fst (dl_iter dataloader))
                   /\ is_nan (item (criterion (call_model (net_eval model0) (fst b))
                                              (snd b))) = true) ->
        v = S754_nan).
Proof.
  split.
  - intros t Ht Hnan. rewrite train_result in Ht.
    destruct (weighted_mean _) as [v | e] eqn:E; [| discriminate].
    cbn in Ht. injection Ht as <-. cbn [snd].
    exact (weighted_mean_nan _ v Hnan E).
  - intros v Hv (b & Hin & Hnan).
    destruct (evaluate_result model0 dataloader metrics) as (Hr & _).
    rewrite Hr in Hv.
    apply (weighted_mean_nan
             (eval_trace (net_eval model0) (fst (dl_iter dataloader))) v);
      [| exact Hv].
    exists (item (criterion (call_model (net_eval model0) (fst b)) (snd b)),
            size0 (fst b)).
    split; [| exact Hnan]. unfold eval_trace.
    now apply (in_map (fun b0 : Batch =>
                         (item (criterion (call_model (net_eval model0) (fst b0))
                                          (snd b0)), size0 (fst b0)))).
Qed.

(** X3: the first value of the per-batch list a training pass returns is
    the loss of the first batch itself: [(0 + l) / 1] loses nothing (the
    negative zero aside, which comes back as 0.0). *)
Theorem first_running_mean_is_first_loss (model0 : Net) (optimizer0 : Optim)
        (dataloader : Loader) (metrics : Metrics)
        (X : Input) (Y : Label) (rest : list Batch) (t : list float * float) :
  fst (dl_iter dataloader) = (X, Y) :: rest ->
  let first_loss :=
    item (criterion
            (call_model (with_params (zero_grad optimizer0 (params model0))
                                     (net_train model0)) X) Y) in
  valid_binary prec emax first_loss = true ->
  first_loss <> S754_zero true ->
  snd (train model0 optimizer0 dataloader metrics) = Ok t ->
  nth_error (fst t) 0 = Some first_loss.
Proof.
  intros Hb first_loss Hv Hz Ht. rewrite train_result, Hb in Ht.
  destruct (weighted_mean _) as [v | e]; [| discriminate].
  cbn [result_map] in Ht. injection Ht as <-. cbn [fst train_trace].
  destruct (opt_step _ _) as [optimizer1 params2].
  cbn [map fst running_from nth_error]. f_equal.
  now apply plus_zero_over_one.
Qed.

End PassEdges.

(** ** What [fit] of class [Solver] does *)

Section SolverFit.

Context {C : Collaborators}.

(** The loop of [train] leaves the flag [training] as it found it. *)
Lemma train_loop_training (bs : list Batch) :
  forall i st,
    training (tr_model (fst (for_enumerate train_batch i bs st)))
    = training (tr_model st).
Proof.
  induction bs as [| [X Y] bs IH]; intros i st; [reflexivity |].
  cbn [for_enumerate]. unfold bind at 1. unfold train_batch at 1.
  cbn [params with_params].
  destruct (opt_step (tr_optimizer st) _) as [optimizer1 params2].
  destruct (truediv _ _) as [a | e]; [| reflexivity].
  rewrite IH. reflexivity.
Qed.

(** A training pass leaves the network in training mode. *)
Lemma train_leaves_training_mode model0 optimizer0 dataloader metrics :
  training (to_model (fst (train model0 optimizer0 dataloader metrics))) = true.
Proof.
  unfold train. destruct (dl_iter dataloader) as [batches dataloader'].
  unfold train_body, bind at 1.
  pose proof (train_loop_training batches 0
                (train_enter model0 optimizer0 metrics)) as K.
  destruct (for_enumerate train_batch 0 batches _) as [st [[] | e]];
    cbn [fst] in K.
  - unfold bind, gets, lift, ret.
    destruct (truediv _ _); cbn [fst to_model]; exact K.
  - cbn [fst to_model]. exact K.
Qed.

(** The driver after one turn of the loop with class [Solver]'s own
    [evaluate]: what the training pass did, and the validation metrics
    reset; nothing else. *)
Lemma epoch_Solver_state (s : Solver) :
  let tr := train (model s) (optimizer s) (train_loader s)
                  (m_reset (train_metrics s)) in
  fst (epoch Solver_evaluate s) =
  {| epochs := epochs s;
     model := to_model (fst tr);
     train_loader := to_dataloader (fst tr);
     val_loader := val_loader s;
     optimizer := to_optimizer (fst tr);
     scheduler := scheduler s;
     train_metrics := to_metrics (fst tr);
     val_metrics := m_reset (val_metrics s);
     train_loss_history :=
       match snd tr with
       | Ok t => train_loss_history s ++ [snd t]
       | Raise _ => train_loss_history s
       end;
     val_loss_history := val_loss_history s;
     train_loss_batch :=
       match snd tr with
       | Ok t => train_loss_batch s ++ fst t
       | Raise _ => train_loss_batch s
       end;
     best_model := best_model s;
     best_dice_score := best_dice_score s |}.
Proof.
  cbv zeta.
  unfold epoch, bind, modify, call_train, call_evaluate, gets.
  destruct s as [ep mdl tl vl opt sch tm vm tlh vlh tlb bm bd].
  cbn -[train last_item fltb].
  destruct (train _ _ _ _) as [o [t | e]]; cbn -[last_item fltb]; reflexivity.
Qed.

Lemma epoch_Solver_raises (s : Solver) :
  exists e, snd (epoch Solver_evaluate s) = Raise e
            /\ (e = TypeError \/ e = ZeroDivisionError)
            /\ (e = TypeError <->
                exists t, snd (train (model s) (optimizer s) (train_loader s)
                                     (m_reset (train_metrics s))) = Ok t).
Proof.
  pose proof (epoch_cases Solver_evaluate s) as K. cbv zeta in K.
  destruct (pass_fails_iff_no_sample (model s) (optimizer s) (train_loader s)
              (m_reset (train_metrics s))) as (_ & _ & Honly).
  destruct (snd (train _ _ _ _)) as [t | e].
  - rewrite Solver_evaluate_raises in K. destruct K as (K & _).
    exists TypeError. split; [exact K |]. split; [now left |].
    split; [intros _; now exists t | reflexivity].
  - destruct K as (K & _). exists e. split; [exact K |].
    assert (E : e = ZeroDivisionError) by (apply Honly; now left).
    split; [now right |]. subst e.
    split; [discriminate | intros (t & Ht); discriminate Ht].
Qed.

Lemma fit_is_first_epoch (s : Solver) :
  1 <= epochs s -> fit s = epoch Solver_evaluate s.
Proof.
  intros Hn. destruct (epoch_Solver_raises s) as (e & He & _).
  unfold fit. rewrite (fit_with_raise_of_snd _ _ _ Hn He).
  destruct (epoch Solver_evaluate s) as [s1 r]. cbn in *. now subst.
Qed.

(** X4: what [fit] of class [Solver] ends in depends on two things only.
    With an epoch count below 1 it returns and leaves the driver as it was.
    Otherwise it raises [TypeError] when some batch of the training loader
    has a sample, and [ZeroDivisionError] when none has.  It raises nothing
    else: the scheduler guard of lines 59-60 and the index of line 67 are
    never reached. *)
Theorem fit_outcome (s : Solver) :
  let batches := fst (dl_iter (train_loader s)) in
  (epochs s <= 0 -> fit s = (s, Ok tt))
  /\ (1 <= epochs s ->
      (exists b, In b batches /\ size0 (fst b) <> 0%N) ->
      snd (fit s) = Raise TypeError)
  /\ (1 <= epochs s ->
      (forall b, In b batches -> size0 (fst b) = 0%N) ->
      snd (fit s) = Raise ZeroDivisionError)
  /\ (forall e, snd (fit s) = Raise e -> e = TypeError \/ e = ZeroDivisionError).
Proof.
  cbv zeta.
  destruct (pass_fails_iff_no_sample (model s) (optimizer s) (train_loader s)
              (m_reset (train_metrics s))) as (Hsome & Hnone & _).
  cbv zeta in Hsome, Hnone.
  destruct (epoch_Solver_raises s) as (e0 & He0 & Hkind & Htype).
  split; [| split; [| split]].
  - intros Hn. unfold fit, fit_with.
    replace (Z.to_nat (epochs s)) with 0%nat by lia. reflexivity.
  - intros Hn Hex. rewrite (fit_is_first_epoch s Hn), He0. f_equal.
    apply Htype. exact (proj1 (Hsome Hex)).
  - intros Hn Hall. rewrite (fit_is_first_epoch s Hn), He0. f_equal.
    destruct Hkind as [E | E]; [| exact E].
    apply Htype in E. destruct E as (t & Ht).
    rewrite (proj1 (Hnone Hall)) in Ht. discriminate Ht.
  - intros e He. destruct (Z_le_gt_dec (epochs s) 0) as [Hn | Hn].
    + unfold fit, fit_with in He.
      replace (Z.to_nat (epochs s)) with 0%nat in He by lia. discriminate He.
    + rewrite (fit_is_first_epoch s ltac:(lia)), He0 in He.
      injection He as <-. exact Hkind.
Qed.

(** X5: however [fit] of class [Solver] ends, it has recorded no validation
    loss, has not touched the best score, the best snapshot, the validation
    loader or the scheduler; and when there was an epoch to run, the network
    is left as the one training pass left it and in training mode, the
    optimizer and the training loader having been used for that one pass. *)
Theorem fit_never_validates (s : Solver) :
  let tr := train (model s) (optimizer s) (train_loader s)
                  (m_reset (train_metrics s)) in
  (val_loss_history (fst (fit s)) = val_loss_history s
   /\ best_dice_score (fst (fit s)) = best_dice_score s
   /\ best_model (fst (fit s)) = best_model s
   /\ val_loader (fst (fit s)) = val_loader s
   /\ scheduler (fst (fit s)) = scheduler s)
  /\ (1 <= epochs s ->
      model (fst (fit s)) = to_model (fst tr)
      /\ training (model (fst (fit s))) = true
      /\ optimizer (fst (fit s)) = to_optimizer (fst tr)
      /\ train_loader (fst (fit s)) = snd (dl_iter (train_loader s))
      /\ val_metrics (fst (fit s)) = m_reset (val_metrics s)).
Proof.
  cbv zeta. destruct (Z_le_gt_dec (epochs s) 0) as [Hn | Hn].
  - split; [| lia]. unfold fit, fit_with.
    replace (Z.to_nat (epochs s)) with 0%nat by lia. now repeat split.
  - assert (H1 : 1 <= epochs s) by lia.
    rewrite (fit_is_first_epoch s H1).
    pose proof (epoch_Solver_state s) as K. cbv zeta in K. rewrite K.
    cbn [val_loss_history best_dice_score best_model val_loader scheduler
         model optimizer train_loader val_metrics].
    split; [now repeat split |]. intros _.
    split; [reflexivity |].
    split; [apply train_leaves_training_mode |].
    split; [reflexivity |]. split; [| reflexivity].
    unfold train. destruct (dl_iter (train_loader s)) as [batches dl'].
    destruct (train_body _ _). reflexivity.
Qed.

End SolverFit.

(** ** More on the histories and the snapshot *)

Section Bookkeeping.

Context {C : Collaborators}.

Variable self_evaluate : evaluate_attr.

Local Abbreviation best := best_dice_score.

(** How far the two histories have grown when a turn of the loop ends,
    whichever way it ends. *)
Lemma epoch_history_growth (s : Solver) :
  let s1 := fst (epoch self_evaluate s) in
  let r := snd (epoch self_evaluate s) in
  (train_loss_history s1 = train_loss_history s
   /\ val_loss_history s1 = val_loss_history s
   /\ r <> Ok tt)
  \/ (exists t, train_loss_history s1 = train_loss_history s ++ [t]
                /\ val_loss_history s1 = val_loss_history s
                /\ r <> Ok tt)
  \/ (exists t v, train_loss_history s1 = train_loss_history s ++ [t]
                  /\ val_loss_history s1 = val_loss_history s ++ [v]).
Proof.
  cbv zeta.
  unfold epoch, bind, modify, call_train, call_evaluate, gets.
  destruct s as [ep mdl tl vl opt sch tm vm tlh vlh tlb bm bd].
  cbn -[train last_item fltb].
  destruct (train _ _ _ _) as [o [t | e]]; cbn -[last_item fltb].
  2: { left. now repeat split. }
  destruct (self_evaluate _ _ _) as [o' [v | e]]; cbn -[last_item fltb].
  2: { right. left. exists (snd t). now repeat split. }
  right. right. exists (snd t), v.
  unfold scheduler_guard, keep_best, report, bind, gets, lift, modify, ret.
  destruct sch as [sch |]; cbn -[last_item fltb]; [| now split].
  destruct (fltb bd _); cbn -[last_item fltb];
    destruct (last_item _); now split.
Qed.

Lemma repeat_histories_in_step (n : nat) :
  forall s,
    length (train_loss_history s) = length (val_loss_history s) ->
    let s' := fst (repeat_m (epoch self_evaluate) n s) in
    let r := snd (repeat_m (epoch self_evaluate) n s) in
    (length (val_loss_history s') <= length (train_loss_history s')
     <= S (length (val_loss_history s')))%nat
    /\ (length (train_loss_history s')
        <= length (train_loss_history s) + n)%nat
    /\ (length (train_loss_history s') <> length (val_loss_history s') ->
        r <> Ok tt)
    /\ (r = Ok tt ->
        length (train_loss_history s') = length (val_loss_history s')).
Proof.
  induction n as [| n IH]; intros s Hs; cbv zeta.
  - cbn. repeat split; lia.
  - cbn [repeat_m]. unfold bind.
    pose proof (epoch_history_growth s) as K. cbv zeta in K.
    destruct (epoch self_evaluate s) as [s1 [[] | e]] eqn:E; cbn [fst snd] in *.
    + destruct K as [(_ & _ & K) | [(t & _ & _ & K) | (t & v & Kt & Kv)]];
        try now elim K.
      assert (Hs1 : length (train_loss_history s1)
                    = length (val_loss_history s1)).
      { rewrite Kt, Kv, !length_app. cbn [length]. lia. }
      specialize (IH s1 Hs1). cbv zeta in IH.
      destruct IH as (I1 & I2 & I3 & I4).
      rewrite Kt, length_app in I2. cbn [length] in I2.
      repeat split; try assumption; lia.
    + destruct K as [(Kt & Kv & _) | [(t & Kt & Kv & _) | (t & v & Kt & Kv)]];
        rewrite Kt, Kv, ?length_app; cbn [length];
        repeat split; try lia; try discriminate.
Qed.

(** X6: on a driver whose two loss histories are equally long (as
    [__init__] leaves them), however [fit] ends the validation history is as
    long as the training history or one value shorter, never longer; one
    shorter means that [fit] raised between the pass of line 50 and the
    append of line 54; and the training history has grown by the epoch count
    at most. *)
Theorem histories_stay_in_step (s : Solver) :
  length (train_loss_history s) = length (val_loss_history s) ->
  let s' := fst (fit_with self_evaluate s) in
  (length (val_loss_history s') <= length (train_loss_history s')
   <= S (length (val_loss_history s')))%nat
  /\ (length (train_loss_history s')
      <= length (train_loss_history s) + Z.to_nat (epochs s))%nat
  /\ (length (train_loss_history s') <> length (val_loss_history s') ->
      snd (fit_with self_evaluate s) <> Ok tt).
Proof.
  intros Hs. cbv zeta. unfold fit_with.
  destruct (repeat_histories_in_step (Z.to_nat (epochs s)) s Hs)
    as (H1 & H2 & H3 & _).
  now repeat split.
Qed.

Lemma repeat_m_add (n m : nat) :
  forall s,
    repeat_m (epoch self_evaluate) (n + m) s =
    match repeat_m (epoch self_evaluate) n s with
    | (s1, Ok _) => repeat_m (epoch self_evaluate) m s1
    | (s1, Raise e) => (s1, Raise e)
    end.
Proof.
  induction n as [| n IH]; intros s; [reflexivity |].
  cbn [Nat.add repeat_m]. unfold bind.
  destruct (epoch self_evaluate s) as [s1 [[] | e]]; [apply IH | reflexivity].
Qed.

(** X7: [fit] resets nothing: after a [fit] that completed, a second [fit]
    ends as one run of twice the epochs on the original driver would, in the
    same state and with the same outcome; the epoch count itself is not
    changed by a run. *)
Theorem fit_twice_continues (s s1 : Solver) :
  fit_with self_evaluate s = (s1, Ok tt) ->
  epochs s1 = epochs s
  /\ fit_with self_evaluate s1 =
     repeat_m (epoch self_evaluate)
              (Z.to_nat (epochs s) + Z.to_nat (epochs s)) s.
Proof.
  unfold fit_with. intros H.
  destruct (repeat_completes self_evaluate _ _ _ H) as [Hc _].
  destruct (completes_histories _ _ _ _ Hc) as (_ & _ & He).
  split; [exact He |].
  now rewrite repeat_m_add, H, He.
Qed.

Lemma last_item_cons {A : Type} (x : A) (ys : list A) :
  ys <> [] -> last_item (x :: ys) = last_item ys.
Proof.
  intros Hys. unfold last_item. cbn [rev].
  destruct (rev ys) as [| y r] eqn:E; [| reflexivity].
  apply (f_equal (@rev A)) in E. rewrite rev_involutive in E. now elim Hys.
Qed.

Lemma last_item_app {A : Type} (xs ys : list A) :
  ys <> [] -> last_item (xs ++ ys) = last_item ys.
Proof.
  intros Hys. induction xs as [| x xs IH]; [reflexivity |].
  cbn [app]. rewrite last_item_cons; [exact IH |].
  destruct xs; [exact Hys | discriminate].
Qed.

Lemma running_from_last (ls : list float) :
  forall a i, ls <> [] ->
    last_item (running_from a i ls) =
    Ok (quot (sum_from a (map PyFloat ls)) (PyInt (i + Z.of_nat (length ls)))).
Proof.
  induction ls as [| l ls IH]; intros a i Hne; [now elim Hne |].
  destruct ls as [| l' ls].
  - cbn. reflexivity.
  - cbn [running_from]. rewrite last_item_cons.
    2: { cbn [running_from]. discriminate. }
    specialize (IH (add a (PyFloat l)) (i + 1) ltac:(discriminate)).
    cbn [running_from] in IH. rewrite IH.
    cbn [map sum_from fold_left length]. do 3 f_equal. lia.
Qed.

(** X8: at the end of an epoch that completes, the last value of
    [train_loss_batch], which line 67 reads for the validation line of the
    summary, is the unweighted mean of the losses of all the batches of that
    epoch's training pass. *)
Theorem last_batch_value_is_training_mean (s s' : Solver) :
  epoch self_evaluate s = (s', Ok tt) ->
  let trace := train_trace (net_train (model s)) (optimizer s)
                           (fst (dl_iter (train_loader s))) in
  trace <> []
  /\ last_item (train_loss_batch s')
     = running_mean (map fst trace) (length trace).
Proof.
  intros H. cbv zeta. apply epoch_ok_inv in H.
  destruct H as (o & t & o' & v & sch & Htrain & _ & _ & ->).
  cbn [epoch_end train_loss_batch].
  pose proof (train_result (model s) (optimizer s) (train_loader s)
                (m_reset (train_metrics s))) as K.
  rewrite Htrain in K. cbn [snd] in K.
  set (trace := train_trace (net_train (model s)) (optimizer s)
                            (fst (dl_iter (train_loader s)))) in *.
  destruct trace as [| lb tr] eqn:Etr.
  { rewrite weighted_mean_nil in K. discriminate K. }
  split; [discriminate |].
  destruct (weighted_mean _) as [m | e]; [| discriminate K].
  unfold result_map in K.
  assert (E : t = (running_from (PyInt 0) 0 (map fst (lb :: tr)), m))
    by congruence.
  rewrite E. cbn [fst].
  rewrite last_item_app by (cbn [map running_from]; discriminate).
  rewrite running_from_last by (cbn [map]; discriminate).
  unfold running_mean, truediv. rewrite <- (length_map fst (lb :: tr)).
  rewrite firstn_all. cbn [is_zero_num].
  destruct (Z.eqb_spec (Z.of_nat (length (map fst (lb :: tr)))) 0) as [Ez | _].
  { cbn [map length] in Ez. lia. }
  do 3 f_equal.
Qed.

End Bookkeeping.

(** ** The snapshot and the mode of the network *)

Section Snapshot.

Context {C : Collaborators}.

Local Abbreviation best := best_dice_score.

Lemma completes_snapshot (ev : evaluate_attr) (s s' : Solver) (l : list Solver) :
  completes ev s l s' ->
  is_nan (best s) = false ->
  (best s' = best s /\ best_model s' = best_model s
   /\ forall x, In x l -> fltb (best s) (observed_dice x) = false)
  \/ exists k x,
      nth_error l k = Some x
      /\ best s' = observed_dice x
      /\ best_model s' = model x
      /\ fltb (best s) (observed_dice x) = true
      /\ (forall j y, (j < k)%nat -> nth_error l j = Some y ->
            is_nan (observed_dice y) = false ->
            fltb (observed_dice y) (observed_dice x) = true)
      /\ (forall j y, (k < j)%nat -> nth_error l j = Some y ->
            fltb (observed_dice x) (observed_dice y) = false).
Proof.
  induction 1 as [s | s s1 s' l Hstep Hc IH]; intros Hnan.
  - left. split; [reflexivity | split; [reflexivity | intros x []]].
  - destruct (epoch_best_order ev _ _ Hstep Hnan) as (Hn1 & Hle1 & Hub1 & _).
    destruct (epoch_best ev _ _ Hstep) as [Hb1 Hm1].
    destruct (IH Hn1) as [(Eb & Em & Hall) | (k & x & Hk & Eb & Em & Hgt & Hbefore & Hafter)].
    + destruct (fltb (best s) (observed_dice s1)) eqn:Eimp.
      * right. exists 0%nat, s1.
        split; [reflexivity |]. split; [congruence |]. split; [congruence |].
        split; [exact Eimp |]. split.
        -- intros j y Hj. lia.
        -- intros j y Hj Hy. destruct j as [| j]; [lia |].
           cbn [nth_error] in Hy. apply nth_error_In in Hy.
           rewrite <- Hb1. now apply Hall.
      * left. split; [congruence |]. split; [congruence |].
        intros x [<- | Hx]; [exact Eimp |].
        rewrite <- Hb1. now apply Hall.
    + right. exists (S k), x.
      split; [exact Hk |]. split; [exact Eb |]. split; [exact Em |].
      split; [now apply (fleb_fltb_trans _ (best s1)) |]. split.
      * intros j y Hj Hy Hd. destruct j as [| j].
        -- cbn in Hy. injection Hy as <-.
           apply (fleb_fltb_trans _ (best s1)); [now apply Hub1 | exact Hgt].
        -- cbn [nth_error] in Hy. apply (Hbefore j y); [lia | exact Hy | exact Hd].
      * intros j y Hj Hy. destruct j as [| j]; [lia |].
        cbn [nth_error] in Hy. apply (Hafter j y); [lia | exact Hy].
Qed.

(** X9: after a [fit] that completes, from a best score that is a number:
    either no epoch's validation Dice score was greater than the starting
    score, and score and snapshot are the starting ones; or they are the
    Dice score and the network of one epoch, the first to reach the greatest
    score: every earlier epoch scored less (or NaN) and no later epoch
    scored more, so that an equal score later does not replace the
    snapshot. *)
Theorem snapshot_is_first_maximum (ev : evaluate_attr) (s s' : Solver) :
  fit_with ev s = (s', Ok tt) ->
  is_nan (best s) = false ->
  let l := epoch_states ev (Z.to_nat (epochs s)) s in
  (best s' = best s /\ best_model s' = best_model s
   /\ forall x, In x l -> fltb (best s) (observed_dice x) = false)
  \/ exists k x,
      nth_error l k = Some x
      /\ best s' = observed_dice x
      /\ best_model s' = model x
      /\ fltb (best s) (observed_dice x) = true
      /\ (forall j y, (j < k)%nat -> nth_error l j = Some y ->
            is_nan (observed_dice y) = false ->
            fltb (observed_dice y) (observed_dice x) = true)
      /\ (forall j y, (k < j)%nat -> nth_error l j = Some y ->
            fltb (observed_dice x) (observed_dice y) = false).
Proof.
  unfold fit_with. intros H Hnan. cbv zeta.
  destruct (repeat_completes ev _ _ _ H) as [Hc _].
  exact (completes_snapshot ev _ _ _ Hc Hnan).
Qed.

(** X10: an epoch in which [evaluate] is reached with all its arguments
    leaves the network with the parameters the training pass gave it and in
    evaluation mode, not in training mode; the validation loader has been
    iterated once; and the snapshot is the one before or this network. *)
Theorem epoch_leaves_evaluation_mode (s s' : Solver) :
  epoch evaluate s = (s', Ok tt) ->
  let tr := train (model s) (optimizer s) (train_loader s)
                  (m_reset (train_metrics s)) in
  params (model s') = params (to_model (fst tr))
  /\ training (to_model (fst tr)) = true
  /\ training (model s') = false
  /\ val_loader s' = snd (dl_iter (val_loader s))
  /\ (best_model s' = best_model s \/ best_model s' = model s').
Proof.
  intros H. cbv zeta. destruct (epoch_best evaluate _ _ H) as [_ Hm].
  apply epoch_ok_inv in H.
  destruct H as (o & t & o' & v & sch & Htrain & Heval & _ & ->).
  rewrite Htrain. cbn [fst].
  destruct (evaluate_result (to_model o) (val_loader s) (m_reset (val_metrics s)))
    as (_ & Hmodel & Hloader).
  rewrite Heval in Hmodel, Hloader. cbn [fst] in Hmodel, Hloader.
  cbn [epoch_end model val_loader]. rewrite Hmodel, Hloader.
  split; [reflexivity |]. split.
  { pose proof (train_leaves_training_mode (model s) (optimizer s)
                  (train_loader s) (m_reset (train_metrics s))) as K.
    now rewrite Htrain in K. }
  split; [reflexivity |]. split; [reflexivity |].
  rewrite Hm. destruct (fltb _ _); [right | left]; [| reflexivity].
  cbn [epoch_end model]. now rewrite Hmodel.
Qed.

End Snapshot.

(** ** More runs on the small collaborators *)

Section MoreRuns.

Existing Instance Toy.collaborators.

Lemma pass_fails_iff_no_sample_witness :
  (exists b, In b (fst (dl_iter ([Toy.two_batches] : Loader)))
             /\ size0 (fst b) <> 0%N)
  /\ (exists t, snd (train Toy.net 0 [Toy.two_batches] []) = Ok t)
  /\ (forall b, In b (fst (dl_iter ([[Toy.batch 0 (lit 1 1)]] : Loader))) ->
                size0 (fst b) = 0%N)
  /\ snd (evaluate Toy.net [[Toy.batch 0 (lit 1 1)]] []) = Raise ZeroDivisionError.
Proof.
  assert (Hsome : exists b, In b (fst (dl_iter ([Toy.two_batches] : Loader)))
                            /\ size0 (fst b) <> 0%N).
  { exists (Toy.batch 2 (lit 1 1)). split; [now left | discriminate]. }
  assert (Hnone : forall b,
             In b (fst (dl_iter ([[Toy.batch 0 (lit 1 1)]] : Loader))) ->
             size0 (fst b) = 0%N).
  { intros b [<- | []]. reflexivity. }
  split; [exact Hsome |]. split.
  - destruct (pass_fails_iff_no_sample Toy.net 0 [Toy.two_batches] [])
      as (H & _).
    exact (proj1 (H Hsome)).
  - split; [exact Hnone |].
    destruct (pass_fails_iff_no_sample Toy.net 0 [[Toy.batch 0 (lit 1 1)]] [])
      as (_ & H & _).
    exact (proj2 (H Hnone)).
Defined.

Lemma nan_loss_gives_nan_mean_witness :
  snd (evaluate Toy.net [Toy.nan_batches] []) = Ok S754_nan
  /\ (exists b, In b (fst (dl_iter ([Toy.nan_batches] : Loader)))
                /\ is_nan (item (criterion (call_model (net_eval Toy.net) (fst b))
                                           (snd b))) = true)
  /\ S754_nan = S754_nan.
Proof.
  assert (Hv : snd (evaluate Toy.net [Toy.nan_batches] []) = Ok S754_nan)
    by reflexivity.
  assert (Hnan : exists b, In b (fst (dl_iter ([Toy.nan_batches] : Loader)))
                   /\ is_nan (item (criterion (call_model (net_eval Toy.net) (fst b))
                                              (snd b))) = true).
  { exists (Toy.batch 3 S754_nan). split; [right; now left | reflexivity]. }
  split; [exact Hv |]. split; [exact Hnan |].
  destruct (nan_loss_gives_nan_mean Toy.net 0 [Toy.nan_batches] []) as (_ & H).
  exact (H S754_nan Hv Hnan).
Defined.

Lemma first_running_mean_is_first_loss_witness :
  fst (dl_iter ([Toy.two_batches] : Loader))
  = Toy.batch 2 (lit 1 1) :: [Toy.batch 3 (lit 2 1)]
  /\ (exists t, snd (train Toy.net 0 [Toy.two_batches] []) = Ok t
                /\ nth_error (fst t) 0 = Some (lit 1 1)).
Proof.
  split; [reflexivity |].
  eexists. split; [reflexivity |].
  refine (first_running_mean_is_first_loss Toy.net 0 [Toy.two_batches] []
            (2%N, lit 1 1) tt [Toy.batch 3 (lit 2 1)] _ eq_refl _ _ eq_refl).
  - reflexivity.
  - vm_compute. discriminate.
Defined.

Lemma fit_outcome_witness :
  1 <= epochs (Toy.solver None)
  /\ (exists b, In b (fst (dl_iter (train_loader (Toy.solver None))))
                /\ size0 (fst b) <> 0%N)
  /\ snd (fit (Toy.solver None)) = Raise TypeError.
Proof.
  assert (Hn : 1 <= epochs (Toy.solver None)) by (cbn; lia).
  assert (Hsome : exists b, In b (fst (dl_iter (train_loader (Toy.solver None))))
                            /\ size0 (fst b) <> 0%N).
  { exists (Toy.batch 2 (lit 1 1)). split; [now left | discriminate]. }
  split; [exact Hn |]. split; [exact Hsome |].
  destruct (fit_outcome (Toy.solver None)) as (_ & H & _).
  exact (H Hn Hsome).
Defined.

Lemma fit_never_validates_witness :
  1 <= epochs (Toy.solver None)
  /\ training (model (fst (fit (Toy.solver None)))) = true
  /\ best_model (fst (fit (Toy.solver None))) = Toy.net.
Proof.
  assert (Hn : 1 <= epochs (Toy.solver None)) by (cbn; lia).
  split; [exact Hn |].
  destruct (fit_never_validates (Toy.solver None))
    as ((_ & _ & Hb & _) & H).
  destruct (H Hn) as (_ & Ht & _).
  split; [exact Ht | exact Hb].
Defined.

Lemma histories_stay_in_step_witness :
  length (train_loss_history (Toy.solver None))
  = length (val_loss_history (Toy.solver None))
  /\ (length (val_loss_history (fst (fit_with evaluate (Toy.solver None))))
      <= length (train_loss_history (fst (fit_with evaluate (Toy.solver None))))
      <= S (length (val_loss_history (fst (fit_with evaluate (Toy.solver None))))))%nat.
Proof.
  assert (Hs : length (train_loss_history (Toy.solver None))
               = length (val_loss_history (Toy.solver None))) by reflexivity.
  split; [exact Hs |].
  exact (proj1 (histories_stay_in_step evaluate (Toy.solver None) Hs)).
Defined.

Lemma fit_twice_continues_witness :
  fit_with evaluate (Toy.solver (Some 7)) = (Toy.finished, Ok tt)
  /\ fit_with evaluate Toy.finished
     = repeat_m (epoch evaluate) 4 (Toy.solver (Some 7)).
Proof.
  assert (H : fit_with evaluate (Toy.solver (Some 7)) = (Toy.finished, Ok tt))
    by reflexivity.
  split; [exact H |].
  exact (proj2 (fit_twice_continues evaluate _ _ H)).
Defined.

Lemma last_batch_value_is_training_mean_witness :
  epoch evaluate (Toy.solver (Some 7)) = (Toy.after_one, Ok tt)
  /\ last_item (train_loss_batch Toy.after_one)
     = running_mean
         (map fst (train_trace (net_train Toy.net) 0 Toy.two_batches)) 2.
Proof.
  assert (H : epoch evaluate (Toy.solver (Some 7)) = (Toy.after_one, Ok tt))
    by reflexivity.
  split; [exact H |].
  exact (proj2 (last_batch_value_is_training_mean evaluate _ _ H)).
Defined.

Lemma snapshot_is_first_maximum_witness :
  fit_with evaluate (Toy.solver (Some 7)) = (Toy.finished, Ok tt)
  /\ is_nan (best_dice_score (Toy.solver (Some 7))) = false
  /\ nth_error (epoch_states evaluate 2 (Toy.solver (Some 7))) 1
     = Some Toy.finished
  /\ best_model Toy.finished = model Toy.finished.
Proof.
  assert (H : fit_with evaluate (Toy.solver (Some 7)) = (Toy.finished, Ok tt))
    by reflexivity.
  split; [exact H |]. split; [reflexivity |]. split; [reflexivity |].
  destruct (snapshot_is_first_maximum evaluate _ _ H eq_refl)
    as [(_ & Hm & _) | (k & x & _ & _ & _ & _)]; reflexivity.
Defined.

Lemma epoch_leaves_evaluation_mode_witness :
  epoch evaluate (Toy.solver (Some 7)) = (Toy.after_one, Ok tt)
  /\ training (model (Toy.solver (Some 7))) = true
  /\ training (model Toy.after_one) = false.
Proof.
  assert (H : epoch evaluate (Toy.solver (Some 7)) = (Toy.after_one, Ok tt))
    by reflexivity.
  split; [exact H |]. split; [reflexivity |].
  destruct (epoch_leaves_evaluation_mode _ _ H) as (_ & _ & Ht & _).
  exact Ht.
Defined.

End MoreRuns.
